(** * NativePerformance: the web-performance native module

    A shallow embedding of
    [ReactCommon/react/nativemodule/webperformance/NativePerformance.cpp]
    together with the collaborators it calls ([PerformanceEntryReporter],
    [PerformanceObserver], the JSI object handles), and the properties of
    the timeline queries, the measure resolution and the observer-handle
    operations.

    Conventions.
    - [HighResTimeStamp] and [HighResDuration] are integers ([Z]); the
      difference of two timestamps is a duration and may be negative.
    - The reading of the external clock ([HighResTimeStamp::now()]) during a
      call is an explicit argument [clock] of every operation that reads it.
    - The module object and the reporter singleton form the [World]; every
      operation is a computation in the state-and-exception monad [Eff],
      where an exception is the message of the [jsi::JSError] thrown. *)

From Stdlib Require Import ZArith Lia Sorting.Sorted.
From stdpp Require Import gmap strings list fin_maps sorting.

Local Open Scope Z_scope.

(** ** Time *)

(** Modelled from the spec: the classes [HighResTimeStamp] and
    [HighResDuration] of the timing primitives (timestamps are comparable
    and subtractable to yield a duration); both are integers here, and
    [HighResTimeStamp::fromDOMHighResTimeStamp(0)] is 0. *)
Abbreviation HighResTimeStamp := Z.
Abbreviation HighResDuration := Z.

(** ** Entries *)

(** Modelled from the spec: the enum [PerformanceEntryType] of
    [PerformanceEntry.h]; the kinds are those of the data model (Mark,
    Measure, EventTiming, ResourceTiming). *)
Inductive PerformanceEntryType : Type :=
  | MARK
  | MEASURE
  | EVENT
  | RESOURCE.

#[global] Instance PerformanceEntryType_eq_dec : EqDecision PerformanceEntryType.
Proof. solve_decision. Defined.

Definition entryType_code (t : PerformanceEntryType) : nat :=
  match t with MARK => 1 | MEASURE => 2 | EVENT => 3 | RESOURCE => 4 end%nat.

Definition entryType_of_code (n : nat) : PerformanceEntryType :=
  match n with
  | 1 => MARK
  | 2 => MEASURE
  | 3 => EVENT
  | _ => RESOURCE
  end%nat.

Lemma entryType_of_code_code t : entryType_of_code (entryType_code t) = t.
Proof. by destruct t. Qed.

#[global] Instance PerformanceEntryType_countable : Countable PerformanceEntryType :=
  inj_countable' entryType_code entryType_of_code entryType_of_code_code.

(** Modelled from the spec: the variant [PerformanceEntry] of
    [PerformanceEntry.h], a tagged union over the four kinds.  A mark has no
    duration field of its own: its duration is zero. *)
Inductive PerformanceEntry : Type :=
  | PerformanceMark (name : string) (startTime : HighResTimeStamp)
  | PerformanceMeasure (name : string) (startTime : HighResTimeStamp)
      (duration : HighResDuration)
  | PerformanceEventTiming (name : string) (startTime : HighResTimeStamp)
      (duration : HighResDuration)
      (processingStart processingEnd : HighResTimeStamp) (interactionId : Z)
  | PerformanceResourceTiming (name : string) (startTime : HighResTimeStamp)
      (duration : HighResDuration)
      (fetchStart requestStart connectStart connectEnd
         responseStart responseEnd : HighResTimeStamp)
      (responseStatus : Z).

Definition entry_name (e : PerformanceEntry) : string :=
  match e with
  | PerformanceMark n _ => n
  | PerformanceMeasure n _ _ => n
  | PerformanceEventTiming n _ _ _ _ _ => n
  | PerformanceResourceTiming n _ _ _ _ _ _ _ _ _ => n
  end.

Definition entry_entryType (e : PerformanceEntry) : PerformanceEntryType :=
  match e with
  | PerformanceMark _ _ => MARK
  | PerformanceMeasure _ _ _ => MEASURE
  | PerformanceEventTiming _ _ _ _ _ _ => EVENT
  | PerformanceResourceTiming _ _ _ _ _ _ _ _ _ _ => RESOURCE
  end.

Definition entry_startTime (e : PerformanceEntry) : HighResTimeStamp :=
  match e with
  | PerformanceMark _ s => s
  | PerformanceMeasure _ s _ => s
  | PerformanceEventTiming _ s _ _ _ _ => s
  | PerformanceResourceTiming _ s _ _ _ _ _ _ _ _ => s
  end.

Definition entry_duration (e : PerformanceEntry) : HighResDuration :=
  match e with
  | PerformanceMark _ _ => 0
  | PerformanceMeasure _ _ d => d
  | PerformanceEventTiming _ _ d _ _ _ => d
  | PerformanceResourceTiming _ _ d _ _ _ _ _ _ _ => d
  end.

(** The bridge shape of an entry ([NativePerformanceEntry]). *)
Record NativePerformanceEntry : Type := {
  native_name : string;
  native_entryType : PerformanceEntryType;
  native_startTime : HighResTimeStamp;
  native_duration : HighResDuration;
  native_processingStart : option HighResTimeStamp;
  native_processingEnd : option HighResTimeStamp;
  native_interactionId : option Z;
  native_fetchStart : option HighResTimeStamp;
  native_requestStart : option HighResTimeStamp;
  native_connectStart : option HighResTimeStamp;
  native_connectEnd : option HighResTimeStamp;
  native_responseStart : option HighResTimeStamp;
  native_responseEnd : option HighResTimeStamp;
  native_responseStatus : option Z
}.

(** ** Entry buffers *)

(** Modelled from the spec: the bounded per-type entry buffer
    ([PerformanceEntryCircularBuffer]), with its capacity bound. *)
Module PerformanceEntryBuffer.

Record t : Type := {
  entries : list PerformanceEntry;
  droppedEntriesCount : nat
}.

Definition empty : t := {| entries := []; droppedEntriesCount := 0 |}.

(** Appends to the tail; if the size exceeds the capacity, removes the
    head and increments the drop count. *)
Definition insert (capacity : nat) (e : PerformanceEntry) (b : t) : t :=
  let es := entries b ++ [e] in
  if (capacity <? length es)%nat
  then {| entries := tail es;
          droppedEntriesCount := S (droppedEntriesCount b) |}
  else {| entries := es; droppedEntriesCount := droppedEntriesCount b |}.

Definition queryAll (b : t) : list PerformanceEntry := entries b.

Definition queryByName (n : string) (b : t) : list PerformanceEntry :=
  filter (λ e, entry_name e = n) (entries b).

(** Empties the buffer; the drop counter is kept. *)
Definition clear (b : t) : t :=
  {| entries := []; droppedEntriesCount := droppedEntriesCount b |}.

Definition clearByName (n : string) (b : t) : t :=
  {| entries := filter (λ e, entry_name e ≠ n) (entries b);
     droppedEntriesCount := droppedEntriesCount b |}.

End PerformanceEntryBuffer.

(** ** Observers *)

(** Options of a single-mode subscription
    ([PerformanceObserverObserveSingleOptions]). *)
Record PerformanceObserverObserveSingleOptions : Type := {
  opt_buffered : bool;
  opt_durationThreshold : HighResDuration
}.

Inductive ObserverStatus : Type :=
  | Idle
  | Observing
  | Disconnected.

(** Modelled from the spec: the class [PerformanceObserver] of
    [PerformanceObserver.h] (subscription set, per-type configuration,
    pending-records queue with its bound, dropped-entry counter), and the
    number of dispatch-callback tasks handed to the scheduler. *)
Module PerformanceObserver.

Record t : Type := {
  status : ObserverStatus;
  observedTypes : gset PerformanceEntryType;
  config : gmap PerformanceEntryType PerformanceObserverObserveSingleOptions;
  queue : list PerformanceEntry;
  queueBound : nat;
  droppedEntriesCount : nat;
  scheduledCallbacks : nat
}.

Definition create (bound : nat) : t :=
  {| status := Idle; observedTypes := ∅; config := ∅; queue := [];
     queueBound := bound; droppedEntriesCount := 0;
     scheduledCallbacks := 0 |}.

(** An entry that does not fit in the pending queue is counted as
    dropped. *)
Definition enqueue (e : PerformanceEntry) (o : t) : t :=
  if (length (queue o) <? queueBound o)%nat
  then {| status := status o; observedTypes := observedTypes o;
          config := config o; queue := queue o ++ [e];
          queueBound := queueBound o;
          droppedEntriesCount := droppedEntriesCount o;
          scheduledCallbacks := scheduledCallbacks o |}
  else {| status := status o; observedTypes := observedTypes o;
          config := config o; queue := queue o;
          queueBound := queueBound o;
          droppedEntriesCount := S (droppedEntriesCount o);
          scheduledCallbacks := scheduledCallbacks o |}.

Definition schedule (o : t) : t :=
  {| status := status o; observedTypes := observedTypes o;
     config := config o; queue := queue o; queueBound := queueBound o;
     droppedEntriesCount := droppedEntriesCount o;
     scheduledCallbacks := S (scheduledCallbacks o) |}.

(** The duration filter of a subscription: an entry passes when its
    duration is at least the threshold. *)
Definition passesThreshold (opts : PerformanceObserverObserveSingleOptions)
    (e : PerformanceEntry) : bool :=
  opt_durationThreshold opts <=? entry_duration e.

(** Does the observer take delivery of [e]? *)
Definition accepts (o : t) (e : PerformanceEntry) : bool :=
  match status o with
  | Observing =>
      bool_decide (entry_entryType e ∈ observedTypes o)
      && match config o !! entry_entryType e with
         | Some opts => passesThreshold opts e
         | None => true
         end
  | _ => false
  end.

(** Delivery of a newly recorded entry: append to the pending queue, then
    one dispatch callback per delivered entry. *)
Definition handleEntry (e : PerformanceEntry) (o : t) : t :=
  if accepts o e then schedule (enqueue e o) else o.

(** The entries replayed by a single-mode subscription: the retained
    entries of the type when [buffered] is set, none otherwise. *)
Definition replayed (opts : PerformanceObserverObserveSingleOptions)
    (retained : list PerformanceEntry) : list PerformanceEntry :=
  if opt_buffered opts then retained else [].

(** Multiple mode: replaces the subscription set. *)
Definition observeTypes (types : gset PerformanceEntryType) (o : t) : t :=
  match status o with
  | Disconnected => o
  | _ =>
      {| status := Observing; observedTypes := types; config := ∅;
         queue := queue o; queueBound := queueBound o;
         droppedEntriesCount := droppedEntriesCount o;
         scheduledCallbacks := scheduledCallbacks o |}
  end.

(** Single mode: subscribes to exactly one type, with a one-time replay of
    the retained entries of that type when [buffered] is set. *)
Definition observeType (ty : PerformanceEntryType)
    (opts : PerformanceObserverObserveSingleOptions)
    (retained : list PerformanceEntry) (o : t) : t :=
  match status o with
  | Disconnected => o
  | _ =>
      foldl (λ acc e, enqueue e acc)
        {| status := Observing; observedTypes := {[ty]};
           config := {[ty := opts]};
           queue := queue o; queueBound := queueBound o;
           droppedEntriesCount := droppedEntriesCount o;
           scheduledCallbacks := scheduledCallbacks o |}
        (replayed opts retained)
  end.

(** Drains the pending queue. *)
Definition takeRecords (o : t) : list PerformanceEntry * t :=
  (match status o with Disconnected => [] | _ => queue o end,
   {| status := status o; observedTypes := observedTypes o;
      config := config o; queue := []; queueBound := queueBound o;
      droppedEntriesCount := droppedEntriesCount o;
      scheduledCallbacks := scheduledCallbacks o |}).

Definition disconnect (o : t) : t :=
  {| status := Disconnected; observedTypes := ∅; config := ∅;
     queue := queue o; queueBound := queueBound o;
     droppedEntriesCount := droppedEntriesCount o;
     scheduledCallbacks := scheduledCallbacks o |}.

End PerformanceObserver.

(** ** The reporter *)

(** Modelled from the spec: the singleton [PerformanceEntryReporter] of
    [PerformanceEntryReporter.h] (one entry buffer per entry type, the
    mark-name index, the event counts and the observer registry).  The
    capacity of the buffers and the bound of an observer's queue are
    implementation-defined constants: they are fields of the reporter, fixed
    when it is created. *)
Module PerformanceEntryReporter.

Record t : Type := {
  bufferCapacity : nat;
  observerQueueBound : nat;
  markBuffer : PerformanceEntryBuffer.t;
  measureBuffer : PerformanceEntryBuffer.t;
  eventBuffer : PerformanceEntryBuffer.t;
  resourceBuffer : PerformanceEntryBuffer.t;
  markIndex : gmap string HighResTimeStamp;
  eventCounts : gmap string nat;
  observers : gmap nat PerformanceObserver.t;
  nextObserverId : nat
}.

Definition create (capacity bound : nat) : t :=
  {| bufferCapacity := capacity; observerQueueBound := bound;
     markBuffer := PerformanceEntryBuffer.empty;
     measureBuffer := PerformanceEntryBuffer.empty;
     eventBuffer := PerformanceEntryBuffer.empty;
     resourceBuffer := PerformanceEntryBuffer.empty;
     markIndex := ∅; eventCounts := ∅; observers := ∅;
     nextObserverId := 0 |}.

Definition getBuffer (ty : PerformanceEntryType) (r : t)
    : PerformanceEntryBuffer.t :=
  match ty with
  | MARK => markBuffer r
  | MEASURE => measureBuffer r
  | EVENT => eventBuffer r
  | RESOURCE => resourceBuffer r
  end.

Definition setBuffer (ty : PerformanceEntryType)
    (b : PerformanceEntryBuffer.t) (r : t) : t :=
  {| bufferCapacity := bufferCapacity r;
     observerQueueBound := observerQueueBound r;
     markBuffer := match ty with MARK => b | _ => markBuffer r end;
     measureBuffer := match ty with MEASURE => b | _ => measureBuffer r end;
     eventBuffer := match ty with EVENT => b | _ => eventBuffer r end;
     resourceBuffer :=
       match ty with RESOURCE => b | _ => resourceBuffer r end;
     markIndex := markIndex r; eventCounts := eventCounts r;
     observers := observers r; nextObserverId := nextObserverId r |}.

Definition setMarkIndex (ix : gmap string HighResTimeStamp) (r : t) : t :=
  {| bufferCapacity := bufferCapacity r;
     observerQueueBound := observerQueueBound r;
     markBuffer := markBuffer r; measureBuffer := measureBuffer r;
     eventBuffer := eventBuffer r; resourceBuffer := resourceBuffer r;
     markIndex := ix; eventCounts := eventCounts r;
     observers := observers r; nextObserverId := nextObserverId r |}.

Definition setEventCounts (c : gmap string nat) (r : t) : t :=
  {| bufferCapacity := bufferCapacity r;
     observerQueueBound := observerQueueBound r;
     markBuffer := markBuffer r; measureBuffer := measureBuffer r;
     eventBuffer := eventBuffer r; resourceBuffer := resourceBuffer r;
     markIndex := markIndex r; eventCounts := c;
     observers := observers r; nextObserverId := nextObserverId r |}.

Definition setObservers (os : gmap nat PerformanceObserver.t) (r : t) : t :=
  {| bufferCapacity := bufferCapacity r;
     observerQueueBound := observerQueueBound r;
     markBuffer := markBuffer r; measureBuffer := measureBuffer r;
     eventBuffer := eventBuffer r; resourceBuffer := resourceBuffer r;
     markIndex := markIndex r; eventCounts := eventCounts r;
     observers := os; nextObserverId := nextObserverId r |}.

(** Appends the entry to the buffer of its type. *)
Definition insertEntry (e : PerformanceEntry) (r : t) : t :=
  setBuffer (entry_entryType e)
    (PerformanceEntryBuffer.insert (bufferCapacity r) e
       (getBuffer (entry_entryType e) r)) r.

(** Forwards the entry to the observer registry. *)
Definition notify (e : PerformanceEntry) (r : t) : t :=
  setObservers (PerformanceObserver.handleEntry e <$> observers r) r.

Definition reportMark (name : string) (startTime : HighResTimeStamp)
    (r : t) : PerformanceEntry * t :=
  let entry := PerformanceMark name startTime in
  let r1 := insertEntry entry r in
  let r2 := setMarkIndex (<[name := startTime]> (markIndex r1)) r1 in
  (entry, notify entry r2).

(** The duration is [endTime - startTime]; it is not clamped. *)
Definition reportMeasure (name : string)
    (startTime endTime : HighResTimeStamp) (r : t)
    : PerformanceEntry * t :=
  let entry := PerformanceMeasure name startTime (endTime - startTime) in
  (entry, notify entry (insertEntry entry r)).

Definition reportEvent (name : string) (startTime : HighResTimeStamp)
    (duration : HighResDuration)
    (processingStart processingEnd : HighResTimeStamp) (interactionId : Z)
    (r : t) : t :=
  let entry :=
    PerformanceEventTiming name startTime duration processingStart
      processingEnd interactionId in
  let r1 :=
    setEventCounts
      (<[name := S (default 0%nat (eventCounts r !! name))]> (eventCounts r))
      r in
  notify entry (insertEntry entry r1).

Definition reportResourceTiming (name : string)
    (startTime : HighResTimeStamp) (duration : HighResDuration)
    (fetchStart requestStart connectStart connectEnd responseStart
       responseEnd : HighResTimeStamp) (responseStatus : Z) (r : t) : t :=
  let entry :=
    PerformanceResourceTiming name startTime duration fetchStart
      requestStart connectStart connectEnd responseStart responseEnd
      responseStatus in
  notify entry (insertEntry entry r).

(** [getEntries(dest, type)] and [getEntries(dest, type, name)]: append
    the matching entries of the buffer of [ty] to [dest], in buffer
    order. *)
Definition getEntries (dest : list PerformanceEntry)
    (ty : PerformanceEntryType) (r : t) : list PerformanceEntry :=
  dest ++ PerformanceEntryBuffer.queryAll (getBuffer ty r).

Definition getEntriesByName (dest : list PerformanceEntry)
    (ty : PerformanceEntryType) (name : string) (r : t)
    : list PerformanceEntry :=
  dest ++ PerformanceEntryBuffer.queryByName name (getBuffer ty r).

Definition getMarkTime (name : string) (r : t) : option HighResTimeStamp :=
  markIndex r !! name.

Definition clearEntries (ty : PerformanceEntryType) (r : t) : t :=
  let r1 := setBuffer ty (PerformanceEntryBuffer.clear (getBuffer ty r)) r in
  match ty with
  | MARK => setMarkIndex ∅ r1
  | _ => r1
  end.

Definition clearEntriesByName (ty : PerformanceEntryType) (name : string)
    (r : t) : t :=
  let r1 :=
    setBuffer ty
      (PerformanceEntryBuffer.clearByName name (getBuffer ty r)) r in
  match ty with
  | MARK => setMarkIndex (delete name (markIndex r1)) r1
  | _ => r1
  end.

Definition getEventCounts (r : t) : list (string * nat) :=
  map_to_list (eventCounts r).

Definition clearEventCounts (r : t) : t := setEventCounts ∅ r.

(** A new observer, owned by the handle that names it. *)
Definition createObserver (r : t) : nat * t :=
  let id := nextObserverId r in
  (id,
   {| bufferCapacity := bufferCapacity r;
      observerQueueBound := observerQueueBound r;
      markBuffer := markBuffer r; measureBuffer := measureBuffer r;
      eventBuffer := eventBuffer r; resourceBuffer := resourceBuffer r;
      markIndex := markIndex r; eventCounts := eventCounts r;
      observers :=
        <[id := PerformanceObserver.create (observerQueueBound r)]>
          (observers r);
      nextObserverId := S id |}).

End PerformanceEntryReporter.

(** ** JSI object handles *)

(** Modelled from the spec: a [jsi::Object] as the native module sees it,
    that is, its native state.  The state is absent, or a
    [PerformanceObserverWrapper] holding an observer, or the native state of
    some other host class.  [getNativeState] of an object without native
    state is the null pointer. *)
Inductive NativeState : Type :=
  | PerformanceObserverWrapper (observer : nat)
  | ForeignNativeState.

Record jsi_Object : Type := { nativeState : option NativeState }.

Definition hasNativeState (obj : jsi_Object) : bool :=
  bool_decide (is_Some (nativeState obj)).

Definition getNativeState (obj : jsi_Object) : option NativeState :=
  nativeState obj.

(** [std::dynamic_pointer_cast<PerformanceObserverWrapper>]: null for a null
    pointer and for a state of another class. *)
Definition dynamic_pointer_cast_wrapper (s : option NativeState) : option nat :=
  match s with
  | Some (PerformanceObserverWrapper observer) => Some observer
  | _ => None
  end.

Definition tryGetObserver (observerObj : jsi_Object) : option nat :=
  if negb (hasNativeState observerObj) then None
  else dynamic_pointer_cast_wrapper (getNativeState observerObj).

(** ** The world and its computations *)

Record World : Type := {
  forcedCurrentTimeStamp_ : option HighResTimeStamp;
  reporter : PerformanceEntryReporter.t
}.

Inductive Outcome (A : Type) : Type :=
  | Returned (a : A)
  | Thrown (message : string).
Arguments Returned {A} a.
Arguments Thrown {A} message.

Definition Eff (A : Type) : Type := World → Outcome A * World.

#[global] Instance Eff_ret : MRet Eff := λ A a w, (Returned a, w).

#[global] Instance Eff_bind : MBind Eff := λ A B k c w,
  match c w with
  | (Returned a, w') => k a w'
  | (Thrown msg, w') => (Thrown msg, w')
  end.

(** [throw jsi::JSError(runtime, msg)] *)
Definition throw {A : Type} (msg : string) : Eff A := λ w, (Thrown msg, w).

(** A call on [PerformanceEntryReporter::getInstance()]. *)
Definition onReporter {A : Type}
    (f : PerformanceEntryReporter.t → A * PerformanceEntryReporter.t) : Eff A :=
  λ w,
    let '(a, r) := f (reporter w) in
    (Returned a,
     {| forcedCurrentTimeStamp_ := forcedCurrentTimeStamp_ w; reporter := r |}).

Definition readReporter {A : Type} (f : PerformanceEntryReporter.t → A) : Eff A :=
  λ w, (Returned (f (reporter w)), w).

Definition updateReporter
    (f : PerformanceEntryReporter.t → PerformanceEntryReporter.t) : Eff unit :=
  onReporter (λ r, (tt, f r)).

Definition outcome {A : Type} (c : Eff A) (w : World) : Outcome A := (c w).1.
Definition after {A : Type} (c : Eff A) (w : World) : World := (c w).2.

(** ** The native module *)

(** [std::stable_sort] with the comparator [PerformanceEntrySorter]. *)

(** Modelled from the spec: the comparator [PerformanceEntrySorter] of
    [PerformanceEntry.h], which orders entries by [startTime] ascending. *)
Definition PerformanceEntrySorter (a b : PerformanceEntry) : bool :=
  entry_startTime a <? entry_startTime b.

Section StableSort.
Context {A : Type} (less : A → A → bool).

(** Insertion in front of the first element that is not smaller. *)
Fixpoint stable_insert (x : A) (l : list A) : list A :=
  match l with
  | [] => [x]
  | y :: l' => if less y x then y :: stable_insert x l' else x :: y :: l'
  end.

Definition stable_sort (l : list A) : list A := foldr stable_insert [] l.
End StableSort.

Definition sortEntries (entries : list PerformanceEntry)
    : list PerformanceEntry :=
  stable_sort PerformanceEntrySorter entries.

Definition toNativePerformanceEntry (entry : PerformanceEntry)
    : NativePerformanceEntry :=
  let nativeEntry :=
    {| native_name := entry_name entry;
       native_entryType := entry_entryType entry;
       native_startTime := entry_startTime entry;
       native_duration := entry_duration entry;
       native_processingStart := None; native_processingEnd := None;
       native_interactionId := None; native_fetchStart := None;
       native_requestStart := None; native_connectStart := None;
       native_connectEnd := None; native_responseStart := None;
       native_responseEnd := None; native_responseStatus := None |} in
  match entry with
  | PerformanceEventTiming _ _ _ processingStart processingEnd interactionId =>
      {| native_name := native_name nativeEntry;
         native_entryType := native_entryType nativeEntry;
         native_startTime := native_startTime nativeEntry;
         native_duration := native_duration nativeEntry;
         native_processingStart := Some processingStart;
         native_processingEnd := Some processingEnd;
         native_interactionId := Some interactionId;
         native_fetchStart := None; native_requestStart := None;
         native_connectStart := None; native_connectEnd := None;
         native_responseStart := None; native_responseEnd := None;
         native_responseStatus := None |}
  | PerformanceResourceTiming _ _ _ fetchStart requestStart connectStart
      connectEnd responseStart responseEnd responseStatus =>
      {| native_name := native_name nativeEntry;
         native_entryType := native_entryType nativeEntry;
         native_startTime := native_startTime nativeEntry;
         native_duration := native_duration nativeEntry;
         native_processingStart := None; native_processingEnd := None;
         native_interactionId := None;
         native_fetchStart := Some fetchStart;
         native_requestStart := Some requestStart;
         native_connectStart := Some connectStart;
         native_connectEnd := Some connectEnd;
         native_responseStart := Some responseStart;
         native_responseEnd := Some responseEnd;
         native_responseStatus := Some responseStatus |}
  | _ => nativeEntry
  end.

Definition toNativePerformanceEntries (entries : list PerformanceEntry)
    : list NativePerformanceEntry :=
  map toNativePerformanceEntry entries.

Definition ENTRY_TYPES_AVAILABLE_FROM_TIMELINE : list PerformanceEntryType :=
  [MARK; MEASURE].

Definition isAvailableFromTimeline (entryType : PerformanceEntryType) : bool :=
  bool_decide (entryType = MARK) || bool_decide (entryType = MEASURE).

(** [forcedCurrentTimeStamp_.value_or(HighResTimeStamp::now())] *)
Definition now (clock : HighResTimeStamp) : Eff HighResTimeStamp :=
  λ w, (Returned (default clock (forcedCurrentTimeStamp_ w)), w).

Definition markWithResult (clock : HighResTimeStamp) (name : string)
    (startTime : option HighResTimeStamp) : Eff HighResTimeStamp :=
  current ← now clock;
  entry ← onReporter
    (PerformanceEntryReporter.reportMark name (default current startTime));
  mret (entry_startTime entry).

Definition markNotFound (markName : string) : string :=
  "The mark '" +:+ markName +:+ "' does not exist.".

(** The look-up of a mark named by a measure call. *)
Definition resolveMark (markName : string) : Eff HighResTimeStamp :=
  bufferedTime ← readReporter (PerformanceEntryReporter.getMarkTime markName);
  match bufferedTime with
  | Some t => mret t
  | None => throw (markNotFound markName)
  end.

Definition measure (clock : HighResTimeStamp) (name : string)
    (startTime endTime : option HighResTimeStamp)
    (duration : option HighResDuration)
    (startMark endMark : option string)
    : Eff (HighResTimeStamp * HighResDuration) :=
  startTimeValue ←
    match startTime, startMark with
    | Some t, _ => mret t
    | None, Some m => resolveMark m
    | None, None => mret 0
    end;
  endTimeValue ←
    match endTime, duration, endMark with
    | Some t, _, _ => mret t
    | None, Some d, _ => mret (startTimeValue + d)
    | None, None, Some m => resolveMark m
    | None, None, None => now clock
    end;
  entry ← onReporter
    (PerformanceEntryReporter.reportMeasure name startTimeValue endTimeValue);
  mret (entry_startTime entry, entry_duration entry).

(** The entry is reported from the parameters [startTime] and [endTime], as
    in the source; [startTimeValue] and [endTimeValue] are computed and not
    used. *)
Definition measureWithResult (clock : HighResTimeStamp) (name : string)
    (startTime endTime : HighResTimeStamp)
    (duration : option HighResDuration)
    (startMark endMark : option string)
    : Eff (HighResTimeStamp * HighResDuration) :=
  startTimeValue ←
    match startMark with
    | Some m => resolveMark m
    | None => mret startTime
    end;
  endTimeValue ←
    match endMark, duration with
    | Some m, _ => resolveMark m
    | None, Some d => mret (startTimeValue + d)
    | None, None =>
        if endTime <? startTimeValue then now clock else mret endTime
    end;
  entry ← onReporter
    (PerformanceEntryReporter.reportMeasure name startTime endTime);
  mret (entry_startTime entry, entry_duration entry).

Definition clearMarks (entryName : option string) : Eff unit :=
  match entryName with
  | Some n => updateReporter (PerformanceEntryReporter.clearEntriesByName MARK n)
  | None => updateReporter (PerformanceEntryReporter.clearEntries MARK)
  end.

Definition clearMeasures (entryName : option string) : Eff unit :=
  match entryName with
  | Some n =>
      updateReporter (PerformanceEntryReporter.clearEntriesByName MEASURE n)
  | None => updateReporter (PerformanceEntryReporter.clearEntries MEASURE)
  end.

(** The entries gathered by [getEntries], before sorting: one
    [reporter->getEntries(entries, entryType)] per timeline type. *)
Definition gatherEntries (r : PerformanceEntryReporter.t)
    : list PerformanceEntry :=
  foldl (λ entries entryType,
           PerformanceEntryReporter.getEntries entries entryType r)
    [] ENTRY_TYPES_AVAILABLE_FROM_TIMELINE.

Definition gatherEntriesByName (entryName : string)
    (entryType : option PerformanceEntryType)
    (r : PerformanceEntryReporter.t) : list PerformanceEntry :=
  match entryType with
  | Some ty =>
      if isAvailableFromTimeline ty
      then PerformanceEntryReporter.getEntriesByName [] ty entryName r
      else []
  | None =>
      foldl (λ entries ty,
               PerformanceEntryReporter.getEntriesByName entries ty entryName r)
        [] ENTRY_TYPES_AVAILABLE_FROM_TIMELINE
  end.

Definition gatherEntriesByType (entryType : PerformanceEntryType)
    (r : PerformanceEntryReporter.t) : list PerformanceEntry :=
  if isAvailableFromTimeline entryType
  then PerformanceEntryReporter.getEntries [] entryType r
  else [].

Definition getEntries : Eff (list NativePerformanceEntry) :=
  entries ← readReporter gatherEntries;
  mret (toNativePerformanceEntries (sortEntries entries)).

Definition getEntriesByName (entryName : string)
    (entryType : option PerformanceEntryType)
    : Eff (list NativePerformanceEntry) :=
  entries ← readReporter (gatherEntriesByName entryName entryType);
  mret (toNativePerformanceEntries (sortEntries entries)).

Definition getEntriesByType (entryType : PerformanceEntryType)
    : Eff (list NativePerformanceEntry) :=
  entries ← readReporter (gatherEntriesByType entryType);
  mret (toNativePerformanceEntries (sortEntries entries)).

Definition getEventCounts : Eff (list (string * nat)) :=
  readReporter PerformanceEntryReporter.getEventCounts.

Definition createObserver : Eff jsi_Object :=
  observer ← onReporter PerformanceEntryReporter.createObserver;
  mret {| nativeState := Some (PerformanceObserverWrapper observer) |}.

(** A method call on the observer a wrapper holds. *)
Definition onObserver {A : Type} (observer : nat) (absent : A)
    (f : PerformanceEntryReporter.t → PerformanceObserver.t →
         A * PerformanceObserver.t) : Eff A :=
  onReporter (λ r,
    match PerformanceEntryReporter.observers r !! observer with
    | Some o =>
        let '(a, o') := f r o in
        (a, PerformanceEntryReporter.setObservers
              (<[observer := o']> (PerformanceEntryReporter.observers r)) r)
    | None => (absent, r)
    end).

Definition getDroppedEntriesCount (observerObj : jsi_Object) : Eff nat :=
  match tryGetObserver observerObj with
  | None => mret 0%nat
  | Some observer =>
      onObserver observer 0%nat
        (λ _ o, (PerformanceObserver.droppedEntriesCount o, o))
  end.

(** The options of [observe] as they arrive from JavaScript; the entry types
    are taken after their conversion to [PerformanceEntryType]. *)
Record NativePerformancePerformanceObserverObserveOptions : Type := {
  type : option PerformanceEntryType;
  entryTypes : option (list PerformanceEntryType);
  buffered : option bool;
  durationThreshold : option HighResDuration
}.

Definition observe (observerObj : jsi_Object)
    (options : NativePerformancePerformanceObserverObserveOptions)
    : Eff unit :=
  match tryGetObserver observerObj with
  | None => mret tt
  | Some observer =>
      let durationThresholdValue := default 0 (durationThreshold options) in
      match entryTypes options with
      | Some rawTypes =>
          onObserver observer tt
            (λ _ o, (tt, PerformanceObserver.observeTypes
                           (list_to_set rawTypes) o))
      | None =>
          let bufferedValue := default false (buffered options) in
          match type options with
          | Some ty =>
              onObserver observer tt
                (λ r o,
                   (tt, PerformanceObserver.observeType ty
                          {| opt_buffered := bufferedValue;
                             opt_durationThreshold := durationThresholdValue |}
                          (PerformanceEntryBuffer.queryAll
                             (PerformanceEntryReporter.getBuffer ty r)) o))
          | None => mret tt
          end
      end
  end.

Definition disconnect (observerObj : jsi_Object) : Eff unit :=
  match dynamic_pointer_cast_wrapper (getNativeState observerObj) with
  | None => mret tt
  | Some observer =>
      onObserver observer tt (λ _ o, (tt, PerformanceObserver.disconnect o))
  end.

Definition takeRecords (observerObj : jsi_Object) (sort : bool)
    : Eff (list NativePerformanceEntry) :=
  match dynamic_pointer_cast_wrapper (getNativeState observerObj) with
  | None => mret []
  | Some observer =>
      records ← onObserver observer []
        (λ _ o, PerformanceObserver.takeRecords o);
      mret (toNativePerformanceEntries
              (if sort then sortEntries records else records))
  end.

Definition setCurrentTimeStampForTesting (ts : HighResTimeStamp) : Eff unit :=
  λ w, (Returned tt,
        {| forcedCurrentTimeStamp_ := Some ts; reporter := reporter w |}).

Definition clearEventCountsForTesting : Eff unit :=
  updateReporter PerformanceEntryReporter.clearEventCounts.

(** ** Runs of the module *)

(** The calls that reach the module from JavaScript, and the entries that
    native instrumentation records on the reporter meanwhile. *)
Inductive Call : Type :=
  | CallNow
  | CallMark (name : string) (startTime : option HighResTimeStamp)
  | CallMeasure (name : string) (startTime endTime : option HighResTimeStamp)
      (duration : option HighResDuration) (startMark endMark : option string)
  | CallMeasureWithResult (name : string) (startTime endTime : HighResTimeStamp)
      (duration : option HighResDuration) (startMark endMark : option string)
  | CallClearMarks (entryName : option string)
  | CallClearMeasures (entryName : option string)
  | CallGetEntries
  | CallGetEntriesByName (entryName : string)
      (entryType : option PerformanceEntryType)
  | CallGetEntriesByType (entryType : PerformanceEntryType)
  | CallGetEventCounts
  | CallCreateObserver
  | CallGetDroppedEntriesCount (observerObj : jsi_Object)
  | CallObserve (observerObj : jsi_Object)
      (options : NativePerformancePerformanceObserverObserveOptions)
  | CallDisconnect (observerObj : jsi_Object)
  | CallTakeRecords (observerObj : jsi_Object) (sort : bool)
  | CallSetCurrentTimeStampForTesting (ts : HighResTimeStamp)
  | CallClearEventCountsForTesting
  | NativeReportEvent (name : string) (startTime : HighResTimeStamp)
      (duration : HighResDuration)
      (processingStart processingEnd : HighResTimeStamp) (interactionId : Z)
  | NativeReportResourceTiming (name : string) (startTime : HighResTimeStamp)
      (duration : HighResDuration)
      (fetchStart requestStart connectStart connectEnd responseStart
         responseEnd : HighResTimeStamp) (responseStatus : Z).

Definition discard {A : Type} (c : Eff A) : Eff unit := c ≫= λ _, mret tt.

(** One call, made while the external clock reads [clock]; the value it
    returns is dropped, an exception is kept. *)
Definition perform (clock : HighResTimeStamp) (c : Call) : Eff unit :=
  match c with
  | CallNow => discard (now clock)
  | CallMark n s => discard (markWithResult clock n s)
  | CallMeasure n s e d sm em => discard (measure clock n s e d sm em)
  | CallMeasureWithResult n s e d sm em =>
      discard (measureWithResult clock n s e d sm em)
  | CallClearMarks n => clearMarks n
  | CallClearMeasures n => clearMeasures n
  | CallGetEntries => discard getEntries
  | CallGetEntriesByName n ty => discard (getEntriesByName n ty)
  | CallGetEntriesByType ty => discard (getEntriesByType ty)
  | CallGetEventCounts => discard getEventCounts
  | CallCreateObserver => discard createObserver
  | CallGetDroppedEntriesCount h => discard (getDroppedEntriesCount h)
  | CallObserve h o => observe h o
  | CallDisconnect h => disconnect h
  | CallTakeRecords h s => discard (takeRecords h s)
  | CallSetCurrentTimeStampForTesting ts => setCurrentTimeStampForTesting ts
  | CallClearEventCountsForTesting => clearEventCountsForTesting
  | NativeReportEvent n s d ps pe i =>
      updateReporter (PerformanceEntryReporter.reportEvent n s d ps pe i)
  | NativeReportResourceTiming n s d f rq cs ce rs re st =>
      updateReporter
        (PerformanceEntryReporter.reportResourceTiming n s d f rq cs ce rs re st)
  end.

(** A run: the calls in order, each with the clock reading at its time.  An
    exception ends the call that raised it, not the run. *)
Definition run (calls : list (HighResTimeStamp * Call)) (w : World) : World :=
  foldl (λ w' '(clock, c), after (perform clock c) w') w calls.

Definition isSetCurrentTimeStamp (c : Call) : bool :=
  match c with
  | CallSetCurrentTimeStampForTesting _ => true
  | _ => false
  end.

(** The world when the module is created. *)
Definition initial (capacity bound : nat) : World :=
  {| forcedCurrentTimeStamp_ := None;
     reporter := PerformanceEntryReporter.create capacity bound |}.

(** * Properties *)

(** ** The stable sort *)

Section StableSortFacts.
Context {A : Type} (key : A → Z).

Local Abbreviation less := (λ a b : A, key a <? key b).

Lemma stable_insert_Permutation x (l : list A) :
  stable_insert less x l ≡ₚ x :: l.
Proof.
  induction l as [|y l IH]; simpl; [done|].
  destruct (less y x); [|done].
  rewrite IH. apply Permutation_swap.
Qed.

Lemma stable_sort_Permutation (l : list A) : stable_sort less l ≡ₚ l.
Proof.
  induction l as [|x l IH]; simpl; [done|].
  rewrite stable_insert_Permutation. by rewrite IH.
Qed.

Lemma stable_insert_sorted x (l : list A) :
  StronglySorted (λ a b, key a ≤ key b) l →
  StronglySorted (λ a b, key a ≤ key b) (stable_insert less x l).
Proof.
  induction 1 as [|y l Hl IH Hy]; simpl.
  - repeat constructor.
  - destruct (Z.ltb_spec (key y) (key x)) as [Hlt|Hge].
    + constructor; [done|].
      rewrite stable_insert_Permutation. constructor; [lia|done].
    + constructor; [by constructor|].
      constructor; [done|].
      eapply Forall_impl; [exact Hy|]. intros z Hz. simpl in Hz. lia.
Qed.

Lemma stable_sort_sorted (l : list A) :
  StronglySorted (λ a b, key a ≤ key b) (stable_sort less l).
Proof.
  induction l as [|x l IH]; simpl; [constructor|].
  by apply stable_insert_sorted.
Qed.

(** Insertion does not move [x] past an element with the same key. *)
Lemma stable_insert_filter x (l : list A) (t : Z) :
  filter (λ a, key a = t) (stable_insert less x l)
  = filter (λ a, key a = t) (x :: l).
Proof.
  induction l as [|y l IH]; simpl; [done|].
  destruct (Z.ltb_spec (key y) (key x)) as [Hlt|Hge]; [|done].
  rewrite (filter_cons _ y (stable_insert _ x l)), IH.
  rewrite !filter_cons.
  repeat case_decide; try done; lia.
Qed.

Lemma stable_sort_filter (l : list A) (t : Z) :
  filter (λ a, key a = t) (stable_sort less l) = filter (λ a, key a = t) l.
Proof.
  induction l as [|x l IH]; simpl; [done|].
  rewrite stable_insert_filter, !filter_cons. by rewrite IH.
Qed.
End StableSortFacts.

(** [result] lists the entries of [original] and, among the entries with one
    and the same [startTime], lists them in the order of [original]. *)
Definition keepsRelativeOrder (original result : list PerformanceEntry) : Prop :=
  ∀ t : HighResTimeStamp,
    filter (λ e, entry_startTime e = t) result
    = filter (λ e, entry_startTime e = t) original.

Definition sortedByStartTime (l : list PerformanceEntry) : Prop :=
  StronglySorted (λ a b, entry_startTime a ≤ entry_startTime b) l.

Lemma sortEntries_Permutation l : sortEntries l ≡ₚ l.
Proof. apply (stable_sort_Permutation entry_startTime). Qed.

Lemma sortEntries_sorted l : sortedByStartTime (sortEntries l).
Proof. apply (stable_sort_sorted entry_startTime). Qed.

Lemma sortEntries_stable l : keepsRelativeOrder l (sortEntries l).
Proof. intros t. apply (stable_sort_filter entry_startTime). Qed.

(** ** Measure resolution *)

(** The result of a measure call that reports the interval from [s] to [e]:
    the entry is stored by the reporter and its start and duration are
    returned. *)
Definition recordedMeasure (name : string) (s e : HighResTimeStamp) (w : World)
    : Outcome (HighResTimeStamp * HighResDuration) * World :=
  (Returned (s, e - s),
   {| forcedCurrentTimeStamp_ := forcedCurrentTimeStamp_ w;
      reporter := (PerformanceEntryReporter.reportMeasure name s e (reporter w)).2 |}).

(** The start timestamp as the specification resolves it (explicit time,
    else named mark, else zero); [None] when the named mark is not in the
    index. *)
Definition resolvedStart (startTime : option HighResTimeStamp)
    (startMark : option string) (r : PerformanceEntryReporter.t)
    : option HighResTimeStamp :=
  match startTime with
  | Some t => Some t
  | None =>
      match startMark with
      | Some m => PerformanceEntryReporter.getMarkTime m r
      | None => Some 0
      end
  end.

(** [sub] occurs in [s]. *)
Definition contains (s sub : string) : Prop :=
  ∃ pre post : string, s = pre +:+ sub +:+ post.

Lemma markNotFound_contains m : contains (markNotFound m) m.
Proof. by exists "The mark '", "' does not exist.". Qed.

Lemma resolveMark_found m t w :
  PerformanceEntryReporter.getMarkTime m (reporter w) = Some t →
  resolveMark m w = (Returned t, w).
Proof.
  intros H. unfold resolveMark, readReporter, mbind, Eff_bind. by rewrite H.
Qed.

Lemma resolveMark_absent m w :
  PerformanceEntryReporter.getMarkTime m (reporter w) = None →
  resolveMark m w = (Thrown (markNotFound m), w).
Proof.
  intros H. unfold resolveMark, readReporter, mbind, Eff_bind. by rewrite H.
Qed.

Lemma bind_returned {A B : Type} (c : Eff A) (k : A → Eff B) a w w' :
  c w = (Returned a, w') → (c ≫= k) w = k a w'.
Proof. intros H. unfold mbind, Eff_bind. by rewrite H. Qed.

Lemma bind_thrown {A B : Type} (c : Eff A) (k : A → Eff B) msg w w' :
  c w = (Thrown msg, w') → (c ≫= k) w = (Thrown msg, w').
Proof. intros H. unfold mbind, Eff_bind. by rewrite H. Qed.

(** The behaviour of [measure] once the start is known. *)
Lemma measure_from_start clock name startTime endTime duration startMark
    endMark w s :
  resolvedStart startTime startMark (reporter w) = Some s →
  measure clock name startTime endTime duration startMark endMark w =
    match endTime, duration, endMark with
    | Some e, _, _ => recordedMeasure name s e w
    | None, Some d, _ => recordedMeasure name s (s + d) w
    | None, None, Some m =>
        match PerformanceEntryReporter.getMarkTime m (reporter w) with
        | Some e => recordedMeasure name s e w
        | None => (Thrown (markNotFound m), w)
        end
    | None, None, None =>
        recordedMeasure name s (default clock (forcedCurrentTimeStamp_ w)) w
    end.
Proof.
  intros Hs. unfold measure.
  assert (Hstart :
    match startTime, startMark with
    | Some t, _ => mret t
    | None, Some m => resolveMark m
    | None, None => mret 0
    end w = (Returned s, w)).
  { destruct startTime as [t|]; simpl in Hs.
    - by inversion Hs.
    - destruct startMark as [m|]; [by apply resolveMark_found|by inversion Hs]. }
  rewrite (bind_returned _ _ _ _ _ Hstart).
  destruct endTime as [e|]; [done|].
  destruct duration as [d|]; [done|].
  destruct endMark as [m|]; [|done].
  destruct (PerformanceEntryReporter.getMarkTime m (reporter w)) as [e|] eqn:Hm.
  - by rewrite (bind_returned _ _ _ _ _ (resolveMark_found _ _ _ Hm)).
  - by rewrite (bind_thrown _ _ _ _ _ (resolveMark_absent _ _ Hm)).
Qed.

Lemma measure_start_absent clock name endTime duration m endMark w :
  PerformanceEntryReporter.getMarkTime m (reporter w) = None →
  measure clock name None endTime duration (Some m) endMark w
  = (Thrown (markNotFound m), w).
Proof.
  intros Hm. unfold measure.
  by rewrite (bind_thrown _ _ _ _ _ (resolveMark_absent _ _ Hm)).
Qed.

Lemma getMarkTime_reportMark name t r :
  PerformanceEntryReporter.getMarkTime name
    (PerformanceEntryReporter.reportMark name t r).2 = Some t.
Proof.
  unfold PerformanceEntryReporter.getMarkTime. simpl.
  apply lookup_insert_eq.
Qed.

Lemma getMarkTime_markWithResult clock name t w :
  PerformanceEntryReporter.getMarkTime name
    (reporter (after (markWithResult clock name (Some t)) w)) = Some t.
Proof. apply getMarkTime_reportMark. Qed.

(** Is the mark a measure call names, if any, in the index? *)
Definition markKnown (mark : option string) (r : PerformanceEntryReporter.t)
    : bool :=
  match mark with
  | Some m => bool_decide (is_Some (PerformanceEntryReporter.getMarkTime m r))
  | None => true
  end.

Lemma markKnown_resolve (mark : option string) (fallback : HighResTimeStamp) w :
  markKnown mark (reporter w) = true →
  ∃ t, match mark with
       | Some m => resolveMark m
       | None => mret fallback
       end w = (Returned t, w).
Proof.
  destruct mark as [m|]; simpl; [|by eexists].
  intros [t Ht]%bool_decide_eq_true. exists t. by apply resolveMark_found.
Qed.

(** When the marks it names are known, [measureWithResult] reports the
    interval of its parameters. *)
Lemma measureWithResult_known clock name startTime endTime duration startMark
    endMark w :
  markKnown startMark (reporter w) = true →
  markKnown endMark (reporter w) = true →
  measureWithResult clock name startTime endTime duration startMark endMark w
  = recordedMeasure name startTime endTime w.
Proof.
  intros Hs He. unfold measureWithResult.
  destruct (markKnown_resolve startMark startTime w Hs) as [s Hstart].
  rewrite (bind_returned _ _ _ _ _ Hstart).
  destruct endMark as [m|].
  - destruct (markKnown_resolve (Some m) 0 w He) as [e Hend].
    by rewrite (bind_returned _ _ _ _ _ Hend).
  - destruct duration as [d|]; [done|].
    by destruct (endTime <? s).
Qed.

Lemma measureWithResult_start_absent clock name startTime endTime duration m
    endMark w :
  PerformanceEntryReporter.getMarkTime m (reporter w) = None →
  measureWithResult clock name startTime endTime duration (Some m) endMark w
  = (Thrown (markNotFound m), w).
Proof.
  intros Hm. unfold measureWithResult.
  by rewrite (bind_thrown _ _ _ _ _ (resolveMark_absent _ _ Hm)).
Qed.

Lemma measureWithResult_end_absent clock name startTime endTime duration
    startMark m w :
  markKnown startMark (reporter w) = true →
  PerformanceEntryReporter.getMarkTime m (reporter w) = None →
  measureWithResult clock name startTime endTime duration startMark (Some m) w
  = (Thrown (markNotFound m), w).
Proof.
  intros Hs Hm. unfold measureWithResult.
  destruct (markKnown_resolve startMark startTime w Hs) as [s Hstart].
  rewrite (bind_returned _ _ _ _ _ Hstart).
  by rewrite (bind_thrown _ _ _ _ _ (resolveMark_absent _ _ Hm)).
Qed.

Lemma markKnown_false (mark : option string) r :
  markKnown mark r = false →
  ∃ m, mark = Some m ∧ PerformanceEntryReporter.getMarkTime m r = None.
Proof.
  destruct mark as [m|]; simpl; [|done].
  intros H%bool_decide_eq_false. exists m. split; [done|].
  by apply eq_None_not_Some.
Qed.

(** C1 (the code departs from the claim).  After [mark("x", 10)], the call
    [measureWithResult("m", startTime = 0, endTime = 20, startMark = "x")]
    looks the mark up (its timestamp is 10) and yet reports and returns the
    interval of its parameters, start 0 and duration 20, where the resolved
    values are start 10 and duration 10.  In general a call that does not
    throw stores and returns the interval from [startTime] to [endTime],
    whatever the marks and the duration. *)
Theorem measureWithResult_ignores_resolved_times :
  (let w := after (markWithResult 0 "x" (Some 10)) (initial 1024 1024) in
   PerformanceEntryReporter.getMarkTime "x" (reporter w) = Some 10
   ∧ outcome (measureWithResult 0 "m" 0 20 None (Some "x") None) w
     = Returned (0, 20)
   ∧ PerformanceEntryBuffer.entries
       (PerformanceEntryReporter.measureBuffer
          (reporter
             (after (measureWithResult 0 "m" 0 20 None (Some "x") None) w)))
     = [PerformanceMeasure "m" 0 20])
  ∧ (∀ clock name startTime endTime duration startMark endMark w,
       let call :=
         measureWithResult clock name startTime endTime duration startMark
           endMark in
       match outcome call w with
       | Returned _ => call w = recordedMeasure name startTime endTime w
       | Thrown _ => after call w = w
       end).
Proof.
  split; [by vm_compute|].
  intros clock name startTime endTime duration startMark endMark w call.
  subst call. unfold outcome, after.
  destruct (markKnown startMark (reporter w)) eqn:Hs.
  - destruct (markKnown endMark (reporter w)) eqn:He.
    + by rewrite measureWithResult_known.
    + apply markKnown_false in He as (m & -> & Hm).
      by rewrite measureWithResult_end_absent.
  - apply markKnown_false in Hs as (m & -> & Hm).
    by rewrite measureWithResult_start_absent.
Qed.

(** C2.  The start of [measure] is resolved in the order: [startTime] when
    given, also when [startMark] is given; else the timestamp the index
    holds for [startMark], the call failing with the mark-not-found error,
    and changing nothing, when the index has none; else zero.  With the
    start resolved to [s], every call stores and returns the interval that
    starts at [s]: to [endTime], else to [s + duration], else to the
    timestamp of [endMark] (failing when the index has none), else to the
    value of [now()].  So a call with [startTime] behaves as the same call
    without [startMark]; and after [mark("x", 10)],
    [measure("m", startMark = "x", endTime = 20)] stores and returns start
    10 and duration 10. *)
Theorem measure_start_resolution clock name startTime endTime duration
    startMark endMark w :
  let call st sm := measure clock name st endTime duration sm endMark w in
  let startedAt (s : HighResTimeStamp) : Prop :=
    call startTime startMark =
      match endTime, duration, endMark with
      | Some e, _, _ => recordedMeasure name s e w
      | None, Some d, _ => recordedMeasure name s (s + d) w
      | None, None, Some m =>
          match PerformanceEntryReporter.getMarkTime m (reporter w) with
          | Some e => recordedMeasure name s e w
          | None => (Thrown (markNotFound m), w)
          end
      | None, None, None =>
          recordedMeasure name s (default clock (forcedCurrentTimeStamp_ w)) w
      end in
  match startTime, startMark with
  | Some t, _ => startedAt t ∧ call (Some t) startMark = call (Some t) None
  | None, Some m =>
      match PerformanceEntryReporter.getMarkTime m (reporter w) with
      | Some t => startedAt t ∧ call None (Some m) = call (Some t) None
      | None => call None (Some m) = (Thrown (markNotFound m), w)
      end
  | None, None => startedAt 0 ∧ call None None = call (Some 0) None
  end
  ∧ (∀ t e : HighResTimeStamp,
       measure clock name (Some t) (Some e) duration startMark endMark w
       = recordedMeasure name t e w)
  ∧ (let w1 := after (markWithResult clock "x" (Some 10)) w in
     measure clock "m" None (Some 20) None (Some "x") None w1
     = recordedMeasure "m" 10 20 w1
     ∧ outcome (measure clock "m" None (Some 20) None (Some "x") None) w1
       = Returned (10, 10)).
Proof.
  split; [|split].
  - destruct startTime as [t|]; simpl.
    + split.
      * by apply (measure_from_start _ _ (Some t) _ _ _ _ _ t).
      * by rewrite !(measure_from_start _ _ (Some t) _ _ _ _ _ t).
    + destruct startMark as [m|].
      * destruct (PerformanceEntryReporter.getMarkTime m (reporter w))
          as [t|] eqn:Hm.
        -- split.
           ++ by apply (measure_from_start _ _ None _ _ (Some m) _ _ t).
           ++ by rewrite (measure_from_start _ _ None _ _ (Some m) _ _ t),
                (measure_from_start _ _ (Some t) _ _ None _ _ t).
        -- by apply measure_start_absent.
      * split.
        -- by apply (measure_from_start _ _ None _ _ None _ _ 0).
        -- by rewrite (measure_from_start _ _ None _ _ None _ _ 0),
             (measure_from_start _ _ (Some 0) _ _ None _ _ 0).
  - intros t e. by rewrite (measure_from_start _ _ (Some t) _ _ _ _ _ t).
  - simpl.
    assert (measure clock "m" None (Some 20) None (Some "x") None
              (after (markWithResult clock "x" (Some 10)) w)
            = recordedMeasure "m" 10 20
                (after (markWithResult clock "x" (Some 10)) w)) as Heq.
    { apply (measure_from_start _ _ None (Some 20) None (Some "x") None _ 10).
      exact (getMarkTime_markWithResult clock "x" 10 w). }
    split; [done|]. unfold outcome. by rewrite Heq.
Qed.

(** C3.  With the start resolved to [s], the end of [measure] is resolved in
    the order: [endTime] when given; else [s + duration]; else the timestamp
    the index holds for [endMark], the call failing with the mark-not-found
    error when the index has none; else the value of [now()], which is the
    forced timestamp when one is set and the clock reading otherwise.  The
    entry stored and the pair returned are those of the interval from [s] to
    that end. *)
Theorem measure_end_resolution clock name startTime endTime duration
    startMark endMark w s :
  resolvedStart startTime startMark (reporter w) = Some s →
  measure clock name startTime endTime duration startMark endMark w =
    match endTime, duration, endMark with
    | Some e, _, _ => recordedMeasure name s e w
    | None, Some d, _ => recordedMeasure name s (s + d) w
    | None, None, Some m =>
        match PerformanceEntryReporter.getMarkTime m (reporter w) with
        | Some e => recordedMeasure name s e w
        | None => (Thrown (markNotFound m), w)
        end
    | None, None, None =>
        match outcome (now clock) w with
        | Returned current => recordedMeasure name s current w
        | Thrown msg => (Thrown msg, w)
        end
    end
  ∧ now clock w = (Returned (default clock (forcedCurrentTimeStamp_ w)), w).
Proof.
  intros Hs. split; [|done].
  rewrite (measure_from_start _ _ _ _ _ _ _ _ s Hs).
  by destruct endTime, duration, endMark.
Qed.

(** An instance: the start comes from the mark "x" at 10, the end from the
    duration 5, although an end mark is named. *)
Lemma measure_end_resolution_witness :
  let w := after (markWithResult 0 "x" (Some 10)) (initial 4 4) in
  resolvedStart None (Some "x") (reporter w) = Some 10
  ∧ measure 7 "m" None None (Some 5) (Some "x") (Some "y") w
    = recordedMeasure "m" 10 15 w.
Proof.
  split; [reflexivity|].
  apply (measure_end_resolution 7 "m" None None (Some 5) (Some "x") (Some "y")
           (after (markWithResult 0 "x" (Some 10)) (initial 4 4)) 10).
  reflexivity.
Defined.

(** ** The mark-not-found failure *)

(** The call names, as start or end mark, a mark that the index lacks. *)
Definition namesAbsentMark (startMark endMark : option string)
    (r : PerformanceEntryReporter.t) (m : string) : Prop :=
  (startMark = Some m ∨ endMark = Some m)
  ∧ PerformanceEntryReporter.getMarkTime m r = None.

(** The fully-optional [measure] looks up, and lacks, the mark [m]: the
    start mark when no [startTime] is given; the end mark when the start is
    resolved and neither [endTime] nor [duration] is given. *)
Definition consultsAbsentMark (startTime endTime : option HighResTimeStamp)
    (duration : option HighResDuration) (startMark endMark : option string)
    (r : PerformanceEntryReporter.t) (m : string) : Prop :=
  PerformanceEntryReporter.getMarkTime m r = None
  ∧ ((startTime = None ∧ startMark = Some m)
     ∨ (is_Some (resolvedStart startTime startMark r)
        ∧ endTime = None ∧ duration = None ∧ endMark = Some m)).

Lemma consultsAbsentMark_names startTime endTime duration startMark endMark r m :
  consultsAbsentMark startTime endTime duration startMark endMark r m →
  namesAbsentMark startMark endMark r m.
Proof. intros [Hm [[_ ?]|(_ & _ & _ & ?)]]; split; auto. Qed.

Lemma measure_thrown clock name startTime endTime duration startMark endMark
    w msg :
  outcome (measure clock name startTime endTime duration startMark endMark) w
  = Thrown msg →
  ∃ m, consultsAbsentMark startTime endTime duration startMark endMark
         (reporter w) m
       ∧ msg = markNotFound m.
Proof.
  unfold outcome. intros H.
  destruct (resolvedStart startTime startMark (reporter w)) as [s|] eqn:Hs.
  - rewrite (measure_from_start _ _ _ _ _ _ _ _ s Hs) in H.
    destruct endTime as [e|]; [done|].
    destruct duration as [d|]; [done|].
    destruct endMark as [m|]; [|done].
    destruct (PerformanceEntryReporter.getMarkTime m (reporter w)) eqn:Hm;
      [done|].
    exists m. split; [|by inversion H].
    split; [done|]. right. rewrite Hs. eauto.
  - destruct startTime as [t|]; [done|].
    destruct startMark as [m|]; [|done]. simpl in Hs.
    rewrite (measure_start_absent _ _ _ _ _ _ _ Hs) in H.
    exists m. split; [|by inversion H].
    split; [done|]. by left.
Qed.

Lemma measure_consults_absent clock name startTime endTime duration startMark
    endMark w m :
  consultsAbsentMark startTime endTime duration startMark endMark (reporter w) m →
  measure clock name startTime endTime duration startMark endMark w
  = (Thrown (markNotFound m), w).
Proof.
  intros [Hm [[-> ->]|([s Hs] & -> & -> & ->)]].
  - by apply measure_start_absent.
  - rewrite (measure_from_start _ _ _ _ _ _ _ _ s Hs). by rewrite Hm.
Qed.

Lemma measureWithResult_names_absent clock name startTime endTime duration
    startMark endMark w m0 :
  namesAbsentMark startMark endMark (reporter w) m0 →
  ∃ m, namesAbsentMark startMark endMark (reporter w) m
       ∧ measureWithResult clock name startTime endTime duration startMark
           endMark w
         = (Thrown (markNotFound m), w).
Proof.
  intros [Hname Habs].
  destruct (markKnown startMark (reporter w)) eqn:Hs.
  - destruct Hname as [->| ->].
    + simpl in Hs. apply bool_decide_eq_true in Hs as [? Hs]. congruence.
    + exists m0. split; [split; auto|].
      by apply measureWithResult_end_absent.
  - apply markKnown_false in Hs as (m & -> & Hm).
    exists m. split; [split; auto|].
    by apply measureWithResult_start_absent.
Qed.

Lemma measureWithResult_thrown clock name startTime endTime duration startMark
    endMark w msg :
  outcome
    (measureWithResult clock name startTime endTime duration startMark endMark)
    w = Thrown msg →
  ∃ m, namesAbsentMark startMark endMark (reporter w) m
       ∧ msg = markNotFound m.
Proof.
  unfold outcome. intros H.
  destruct (markKnown startMark (reporter w)) eqn:Hs.
  - destruct (markKnown endMark (reporter w)) eqn:He.
    + by rewrite measureWithResult_known in H.
    + apply markKnown_false in He as (m & -> & Hm).
      rewrite measureWithResult_end_absent in H by done.
      exists m. split; [split; auto|by inversion H].
  - apply markKnown_false in Hs as (m & -> & Hm).
    rewrite measureWithResult_start_absent in H by done.
    exists m. split; [split; auto|by inversion H].
Qed.

(** C4, as amended.  A [measure] call that looks up a mark the index lacks
    (the start mark when no [startTime] is given; the end mark when neither
    [endTime] nor [duration] is given), and a [measureWithResult] call that
    names such a mark, fails with the message "The mark '<name>' does not
    exist." for a named, absent mark, and leaves the world (so the reporter)
    as it was; the message contains the name; and a measure operation throws
    in no other case. *)
Theorem measure_mark_not_found clock name duration startMark endMark w :
  (∀ startTime endTime m,
     consultsAbsentMark startTime endTime duration startMark endMark
       (reporter w) m →
     measure clock name startTime endTime duration startMark endMark w
     = (Thrown (markNotFound m), w))
  ∧ (∀ startTime endTime m0,
       namesAbsentMark startMark endMark (reporter w) m0 →
       ∃ m, namesAbsentMark startMark endMark (reporter w) m
            ∧ measureWithResult clock name startTime endTime duration
                startMark endMark w
              = (Thrown (markNotFound m), w))
  ∧ (∀ startTime endTime msg,
       outcome
         (measure clock name startTime endTime duration startMark endMark) w
       = Thrown msg →
       ∃ m, consultsAbsentMark startTime endTime duration startMark endMark
              (reporter w) m
            ∧ namesAbsentMark startMark endMark (reporter w) m
            ∧ msg = markNotFound m)
  ∧ (∀ startTime endTime msg,
       outcome
         (measureWithResult clock name startTime endTime duration startMark
            endMark) w
       = Thrown msg →
       ∃ m, namesAbsentMark startMark endMark (reporter w) m
            ∧ msg = markNotFound m)
  ∧ (∀ m, contains (markNotFound m) m).
Proof.
  repeat split.
  - intros. by apply measure_consults_absent.
  - intros. by eapply measureWithResult_names_absent.
  - intros startTime endTime msg H.
    apply measure_thrown in H as (m & Hc & ->).
    exists m. eauto using consultsAbsentMark_names.
  - intros. by eapply measureWithResult_thrown.
  - apply markNotFound_contains.
Qed.

(** An instance: the start mark "nope" on a reporter without marks. *)
Lemma measure_mark_not_found_witness :
  let w := initial 4 4 in
  consultsAbsentMark None None None (Some "nope") None (reporter w) "nope"
  ∧ measure 7 "m" None None None (Some "nope") None w
    = (Thrown "The mark 'nope' does not exist.", w).
Proof.
  assert (consultsAbsentMark None None None (Some "nope") None
            (reporter (initial 4 4)) "nope") as H.
  { split; [reflexivity|]. left. split; reflexivity. }
  split; [exact H|].
  exact (proj1 (measure_mark_not_found 7 "m" None (Some "nope") None
                  (initial 4 4)) None None "nope" H).
Defined.

(** C4 as stated fails: on a reporter without marks,
    [measure("m", endTime = 20, endMark = "nope")] names a mark the index
    lacks, and yet returns and records a Measure entry, because [endTime]
    is given and the end mark is not looked up. *)
Lemma measure_absent_mark_not_consulted :
  let w := initial 1024 1024 in
  let call := measure 7 "m" None (Some 20) None None (Some "nope") in
  namesAbsentMark None (Some "nope") (reporter w) "nope"
  ∧ outcome call w = Returned (0, 20)
  ∧ PerformanceEntryBuffer.entries
      (PerformanceEntryReporter.measureBuffer (reporter (after call w)))
    = [PerformanceMeasure "m" 0 20]
  ∧ ¬ (∀ clock name startTime endTime duration startMark endMark w m,
         namesAbsentMark startMark endMark (reporter w) m →
         ∃ msg,
           measure clock name startTime endTime duration startMark endMark w
           = (Thrown msg, w)).
Proof.
  assert (namesAbsentMark None (Some "nope") (reporter (initial 1024 1024))
            "nope") as Hn.
  { split; [by right|reflexivity]. }
  repeat split; try (by vm_compute); try apply Hn.
  intros Hclaim.
  destruct (Hclaim 7 "m" None (Some 20) None None (Some "nope")
              (initial 1024 1024) "nope" Hn) as [msg Hmsg].
  by vm_compute in Hmsg.
Qed.

(** ** Invariants of runs *)

(** [c] keeps the property [P] of the world, whether it returns or throws. *)
Definition preserves (P : World → Prop) {A : Type} (c : Eff A) : Prop :=
  ∀ w, P w → P (after c w).

Section Preservation.
Context (P : World → Prop).

Lemma preserves_ret {A : Type} (a : A) : preserves P (mret a).
Proof. by intros w. Qed.

Lemma preserves_throw {A : Type} msg : preserves P (@throw A msg).
Proof. by intros w. Qed.

Lemma preserves_bind {A B : Type} (c : Eff A) (k : A → Eff B) :
  preserves P c → (∀ a, preserves P (k a)) → preserves P (c ≫= k).
Proof.
  intros Hc Hk w Hw. specialize (Hc w Hw).
  unfold after, mbind, Eff_bind in *.
  destruct (c w) as [[a|msg] w']; simpl in *; [|done].
  by apply Hk.
Qed.

Lemma preserves_discard {A : Type} (c : Eff A) :
  preserves P c → preserves P (discard c).
Proof. intros Hc. apply preserves_bind; [done|]. intros _. apply preserves_ret. Qed.

Lemma preserves_readReporter {A : Type}
    (f : PerformanceEntryReporter.t → A) :
  preserves P (readReporter f).
Proof. by intros w. Qed.

Lemma preserves_now clock : preserves P (now clock).
Proof. by intros w. Qed.

Lemma preserves_resolveMark m : preserves P (resolveMark m).
Proof.
  apply preserves_bind; [apply preserves_readReporter|].
  intros [t|]; [apply preserves_ret|apply preserves_throw].
Qed.

End Preservation.

(** Splits an operation into its primitive computations. *)
Ltac preserves_step :=
  lazymatch goal with
  | |- preserves _ (mret _) => apply preserves_ret
  | |- preserves _ (throw _) => apply preserves_throw
  | |- preserves _ (discard _) => apply preserves_discard
  | |- preserves _ (_ ≫= _) => apply preserves_bind; [|intros ?]
  | |- preserves _ (readReporter _) => apply preserves_readReporter
  | |- preserves _ (now _) => apply preserves_now
  | |- preserves _ (resolveMark _) => apply preserves_resolveMark
  | |- preserves _ (match ?x with _ => _ end) => destruct x
  end.

Ltac unfold_operations :=
  unfold perform, markWithResult, measure, measureWithResult, clearMarks,
    clearMeasures, getEntries, getEntriesByName, getEntriesByType,
    getEventCounts, createObserver, getDroppedEntriesCount, observe,
    disconnect, takeRecords, clearEventCountsForTesting, updateReporter,
    onObserver.

(** *** Every buffer holds entries of its own type *)

Definition buffersTyped (r : PerformanceEntryReporter.t) : Prop :=
  ∀ ty, Forall (λ e, entry_entryType e = ty)
          (PerformanceEntryBuffer.entries
             (PerformanceEntryReporter.getBuffer ty r)).

Lemma buffersTyped_same r r' :
  (∀ ty, PerformanceEntryReporter.getBuffer ty r'
         = PerformanceEntryReporter.getBuffer ty r) →
  buffersTyped r → buffersTyped r'.
Proof. intros Heq H ty. rewrite Heq. apply H. Qed.

Lemma buffersTyped_setBuffer ty b r :
  Forall (λ e, entry_entryType e = ty) (PerformanceEntryBuffer.entries b) →
  buffersTyped r →
  buffersTyped (PerformanceEntryReporter.setBuffer ty b r).
Proof.
  intros Hb H ty'. specialize (H ty').
  destruct ty, ty'; simpl in *; done.
Qed.

Lemma insert_Forall (P : PerformanceEntry → Prop) capacity e b :
  P e → Forall P (PerformanceEntryBuffer.entries b) →
  Forall P (PerformanceEntryBuffer.entries
              (PerformanceEntryBuffer.insert capacity e b)).
Proof.
  intros He Hb.
  assert (Forall P (PerformanceEntryBuffer.entries b ++ [e])) as Hall.
  { apply Forall_app. split; [done|by constructor]. }
  unfold PerformanceEntryBuffer.insert.
  destruct (_ <? _)%nat; simpl; [|done].
  destruct (PerformanceEntryBuffer.entries b ++ [e]); simpl; [done|].
  by inversion Hall.
Qed.

Lemma buffersTyped_insertEntry e r :
  buffersTyped r → buffersTyped (PerformanceEntryReporter.insertEntry e r).
Proof.
  intros H. apply buffersTyped_setBuffer; [|done].
  apply insert_Forall; [done|apply H].
Qed.

Lemma buffersTyped_setObservers os r :
  buffersTyped r → buffersTyped (PerformanceEntryReporter.setObservers os r).
Proof. apply buffersTyped_same. by intros []. Qed.

Lemma buffersTyped_setMarkIndex ix r :
  buffersTyped r → buffersTyped (PerformanceEntryReporter.setMarkIndex ix r).
Proof. apply buffersTyped_same. by intros []. Qed.

Lemma buffersTyped_setEventCounts c r :
  buffersTyped r → buffersTyped (PerformanceEntryReporter.setEventCounts c r).
Proof. apply buffersTyped_same. by intros []. Qed.

Lemma buffersTyped_reportMark name t r :
  buffersTyped r →
  buffersTyped (PerformanceEntryReporter.reportMark name t r).2.
Proof.
  intros H. simpl. apply buffersTyped_setObservers, buffersTyped_setMarkIndex.
  by apply buffersTyped_insertEntry.
Qed.

Lemma buffersTyped_reportMeasure name s e r :
  buffersTyped r →
  buffersTyped (PerformanceEntryReporter.reportMeasure name s e r).2.
Proof.
  intros H. simpl. apply buffersTyped_setObservers.
  by apply buffersTyped_insertEntry.
Qed.

Lemma buffersTyped_reportEvent n s d ps pe i r :
  buffersTyped r →
  buffersTyped (PerformanceEntryReporter.reportEvent n s d ps pe i r).
Proof.
  intros H. apply buffersTyped_setObservers, buffersTyped_insertEntry.
  by apply buffersTyped_setEventCounts.
Qed.

Lemma buffersTyped_reportResourceTiming n s d f rq cs ce rs re st r :
  buffersTyped r →
  buffersTyped
    (PerformanceEntryReporter.reportResourceTiming n s d f rq cs ce rs re st r).
Proof.
  intros H. by apply buffersTyped_setObservers, buffersTyped_insertEntry.
Qed.

Lemma buffersTyped_clearEntries ty r :
  buffersTyped r → buffersTyped (PerformanceEntryReporter.clearEntries ty r).
Proof.
  intros H.
  assert (buffersTyped
            (PerformanceEntryReporter.setBuffer ty
               (PerformanceEntryBuffer.clear
                  (PerformanceEntryReporter.getBuffer ty r)) r)) as H1.
  { apply buffersTyped_setBuffer; [constructor|done]. }
  unfold PerformanceEntryReporter.clearEntries.
  by destruct ty.
Qed.

Lemma buffersTyped_clearEntriesByName ty name r :
  buffersTyped r →
  buffersTyped (PerformanceEntryReporter.clearEntriesByName ty name r).
Proof.
  intros H.
  assert (buffersTyped
            (PerformanceEntryReporter.setBuffer ty
               (PerformanceEntryBuffer.clearByName name
                  (PerformanceEntryReporter.getBuffer ty r)) r)) as H1.
  { apply buffersTyped_setBuffer; [|done]. simpl.
    apply Forall_forall. intros e [_ He]%list_elem_of_filter.
    by apply (proj1 (Forall_forall _ _) (H ty)). }
  unfold PerformanceEntryReporter.clearEntriesByName.
  by destruct ty.
Qed.

Lemma buffersTyped_createObserver r :
  buffersTyped r →
  buffersTyped (PerformanceEntryReporter.createObserver r).2.
Proof. apply buffersTyped_same. by intros []. Qed.

Lemma buffersTyped_onReporter {A : Type}
    (f : PerformanceEntryReporter.t → A * PerformanceEntryReporter.t) :
  (∀ r, buffersTyped r → buffersTyped (f r).2) →
  preserves (λ w, buffersTyped (reporter w)) (onReporter f).
Proof.
  intros Hf w Hw. unfold after, onReporter.
  specialize (Hf (reporter w) Hw). by destruct (f (reporter w)).
Qed.

Lemma buffersTyped_perform clock c :
  preserves (λ w, buffersTyped (reporter w)) (perform clock c).
Proof.
  destruct c; unfold_operations; repeat preserves_step;
    try (by intros w);
    apply buffersTyped_onReporter; intros r Hr; cbv beta;
    first
      [ by apply buffersTyped_reportMark
      | by apply buffersTyped_reportMeasure
      | by apply buffersTyped_createObserver
      | by apply buffersTyped_reportEvent
      | by apply buffersTyped_reportResourceTiming
      | by apply buffersTyped_clearEntries
      | by apply buffersTyped_clearEntriesByName
      | destruct (PerformanceEntryReporter.observers r !! _); cbn [snd];
        [by apply buffersTyped_setObservers|done] ].
Qed.

Lemma buffersTyped_run calls w :
  buffersTyped (reporter w) → buffersTyped (reporter (run calls w)).
Proof.
  revert w. induction calls as [|[clock c] calls IH]; intros w Hw; [done|].
  simpl. apply IH. by apply buffersTyped_perform.
Qed.

Lemma buffersTyped_initial capacity bound :
  buffersTyped (reporter (initial capacity bound)).
Proof. intros []; constructor. Qed.

(** ** Timeline queries *)

Inductive TimelineQuery : Type :=
  | QueryEntries
  | QueryEntriesByName (entryName : string)
      (entryType : option PerformanceEntryType)
  | QueryEntriesByType (entryType : PerformanceEntryType).

Definition timelineQuery (q : TimelineQuery) : Eff (list NativePerformanceEntry) :=
  match q with
  | QueryEntries => getEntries
  | QueryEntriesByName n ty => getEntriesByName n ty
  | QueryEntriesByType ty => getEntriesByType ty
  end.

(** The entries a query gathers from the reporter, in the order in which it
    gathers them. *)
Definition gathered (q : TimelineQuery) (r : PerformanceEntryReporter.t)
    : list PerformanceEntry :=
  match q with
  | QueryEntries => gatherEntries r
  | QueryEntriesByName n ty => gatherEntriesByName n ty r
  | QueryEntriesByType ty => gatherEntriesByType ty r
  end.

Lemma timelineQuery_sorted_gathered q w :
  timelineQuery q w
  = (Returned (toNativePerformanceEntries (sortEntries (gathered q (reporter w)))),
     w).
Proof. by destruct q. Qed.

Lemma gatherEntries_buffers r :
  gatherEntries r
  = PerformanceEntryBuffer.entries (PerformanceEntryReporter.markBuffer r)
    ++ PerformanceEntryBuffer.entries (PerformanceEntryReporter.measureBuffer r).
Proof. done. Qed.

Lemma isAvailableFromTimeline_false ty :
  ty ≠ MARK → ty ≠ MEASURE → isAvailableFromTimeline ty = false.
Proof. by destruct ty. Qed.

Definition isTimelineEntry (e : PerformanceEntry) : Prop :=
  entry_entryType e = MARK ∨ entry_entryType e = MEASURE.

Lemma buffer_timeline ty r :
  buffersTyped r → isAvailableFromTimeline ty = true →
  Forall isTimelineEntry
    (PerformanceEntryBuffer.entries (PerformanceEntryReporter.getBuffer ty r)).
Proof.
  intros H Hty. eapply Forall_impl; [apply (H ty)|].
  intros e <-. unfold isTimelineEntry.
  destruct (entry_entryType e); auto; done.
Qed.

Lemma Forall_filter_of {A : Type} (P Q : A → Prop) `{∀ x, Decision (Q x)}
    (l : list A) :
  Forall P l → Forall P (filter Q l).
Proof.
  intros Hl. apply Forall_forall. intros x [_ Hx]%list_elem_of_filter.
  by apply (proj1 (Forall_forall _ _) Hl).
Qed.

Lemma gathered_timeline q r :
  buffersTyped r → Forall isTimelineEntry (gathered q r).
Proof.
  intros H.
  pose proof (buffer_timeline MARK r H eq_refl) as Hmark.
  pose proof (buffer_timeline MEASURE r H eq_refl) as Hmeasure.
  destruct q as [|n [ty|]|ty]; simpl.
  - rewrite gatherEntries_buffers. by apply Forall_app.
  - unfold gatherEntriesByName.
    destruct (isAvailableFromTimeline ty) eqn:Hty; [|constructor].
    apply (Forall_filter_of _ _). by apply buffer_timeline.
  - apply Forall_app. split; by apply (Forall_filter_of _ _).
  - unfold gatherEntriesByType.
    destruct (isAvailableFromTimeline ty) eqn:Hty; [|constructor].
    by apply buffer_timeline.
Qed.

(** C5.  [getEntries] returns the sorted entries of the Mark and Measure
    buffers and of no other; [getEntriesByType] of a type other than Mark
    and Measure, and [getEntriesByName] with such a type, return the empty
    sequence; and after every run of the module, whatever entries were
    recorded, each entry a timeline query returns is a Mark or a Measure. *)
Theorem timeline_queries_restricted :
  (∀ w,
     getEntries w
     = (Returned
          (toNativePerformanceEntries
             (sortEntries
                (PerformanceEntryBuffer.entries
                   (PerformanceEntryReporter.markBuffer (reporter w))
                 ++ PerformanceEntryBuffer.entries
                      (PerformanceEntryReporter.measureBuffer (reporter w))))),
        w))
  ∧ (∀ ty w, ty ≠ MARK → ty ≠ MEASURE →
       getEntriesByType ty w = (Returned [], w))
  ∧ (∀ name ty w, ty ≠ MARK → ty ≠ MEASURE →
       getEntriesByName name (Some ty) w = (Returned [], w))
  ∧ (∀ calls capacity bound q,
       let w := run calls (initial capacity bound) in
       ∃ result,
         timelineQuery q w = (Returned result, w)
         ∧ Forall (λ x, native_entryType x = MARK ∨ native_entryType x = MEASURE)
             result).
Proof.
  split; [done|]. split; [|split].
  - intros ty w H1 H2. unfold getEntriesByType, gatherEntriesByType, readReporter.
    by rewrite isAvailableFromTimeline_false.
  - intros name ty w H1 H2.
    unfold getEntriesByName, gatherEntriesByName, readReporter.
    by rewrite isAvailableFromTimeline_false.
  - intros calls capacity bound q w. eexists.
    split; [apply timelineQuery_sorted_gathered|].
    unfold toNativePerformanceEntries. apply Forall_fmap.
    rewrite sortEntries_Permutation.
    eapply Forall_impl.
    + apply gathered_timeline, buffersTyped_run, buffersTyped_initial.
    + intros e He. simpl. by destruct e.
Qed.

(** An instance: a recorded event timing is in the Event buffer and in no
    timeline query by its type. *)
Lemma timeline_queries_restricted_witness :
  let w := run [(0, NativeReportEvent "click" 1 2 1 2 0)] (initial 4 4) in
  EVENT ≠ MARK ∧ EVENT ≠ MEASURE
  ∧ PerformanceEntryBuffer.entries
      (PerformanceEntryReporter.eventBuffer (reporter w))
    = [PerformanceEventTiming "click" 1 2 1 2 0]
  ∧ getEntriesByType EVENT w = (Returned [], w)
  ∧ getEntriesByName "click" (Some EVENT) w = (Returned [], w).
Proof.
  split; [discriminate|]. split; [discriminate|]. split; [reflexivity|].
  destruct timeline_queries_restricted as (_ & HbyType & HbyName & _).
  split.
  - apply (HbyType EVENT); discriminate.
  - apply (HbyName "click" EVENT); discriminate.
Defined.

(** ** Sorted results *)

Lemma takeRecords_sorted observerObj w :
  ∃ records w',
    takeRecords observerObj false w
    = (Returned (toNativePerformanceEntries records), w')
    ∧ takeRecords observerObj true w
      = (Returned (toNativePerformanceEntries (sortEntries records)), w').
Proof.
  unfold takeRecords.
  destruct (dynamic_pointer_cast_wrapper (getNativeState observerObj))
    as [observer|]; [|exists [], w; split; reflexivity].
  unfold onObserver, onReporter, mbind, Eff_bind.
  destruct (PerformanceEntryReporter.observers (reporter w) !! observer)
    as [o|]; simpl.
  - exists (PerformanceObserver.takeRecords o).1. eexists. split; reflexivity.
  - exists []. eexists. split; reflexivity.
Qed.

(** C6, as amended.  [sortEntries] is a stable sort by [startTime]: its
    result is a permutation of its argument, ascending in [startTime], and
    lists the entries of equal [startTime] in the order of the argument.
    Every timeline query returns the gathered entries sorted so, and
    [takeRecords] with [sort] returns the drained records sorted so.  The
    gathered sequence of [getEntries] is the Mark buffer followed by the
    Measure buffer, and a buffer lists its entries in recording order (a new
    entry goes to its tail, the head leaving when the capacity is
    exceeded).  Recording the marks A at 5, B at 3 and C at 3 in that order
    makes [getEntries] yield B, C, A. *)
Theorem sorted_results_stable :
  (∀ l, sortEntries l ≡ₚ l
        ∧ sortedByStartTime (sortEntries l)
        ∧ keepsRelativeOrder l (sortEntries l))
  ∧ (∀ q w,
       timelineQuery q w
       = (Returned
            (toNativePerformanceEntries (sortEntries (gathered q (reporter w)))),
          w))
  ∧ (∀ r,
       gathered QueryEntries r
       = PerformanceEntryBuffer.entries (PerformanceEntryReporter.markBuffer r)
         ++ PerformanceEntryBuffer.entries
              (PerformanceEntryReporter.measureBuffer r))
  ∧ (∀ e r,
       let buffer ty r' :=
         PerformanceEntryBuffer.entries
           (PerformanceEntryReporter.getBuffer ty r') in
       let appended := buffer (entry_entryType e) r ++ [e] in
       let r' := PerformanceEntryReporter.insertEntry e r in
       (buffer (entry_entryType e) r' = appended
        ∨ buffer (entry_entryType e) r' = tail appended)
       ∧ (∀ ty, ty ≠ entry_entryType e → buffer ty r' = buffer ty r))
  ∧ (∀ observerObj w,
       ∃ records w',
         takeRecords observerObj false w
         = (Returned (toNativePerformanceEntries records), w')
         ∧ takeRecords observerObj true w
           = (Returned (toNativePerformanceEntries (sortEntries records)), w'))
  ∧ (let w :=
       run [(0, CallMark "A" (Some 5)); (0, CallMark "B" (Some 3));
            (0, CallMark "C" (Some 3))] (initial 1024 1024) in
     outcome getEntries w
     = Returned
         (toNativePerformanceEntries
            [PerformanceMark "B" 3; PerformanceMark "C" 3;
             PerformanceMark "A" 5])).
Proof.
  split; [|split; [|split; [|split; [|split]]]].
  - intros l. split; [apply sortEntries_Permutation|].
    split; [apply sortEntries_sorted|apply sortEntries_stable].
  - apply timelineQuery_sorted_gathered.
  - apply gatherEntries_buffers.
  - intros e r. simpl. split.
    + unfold PerformanceEntryReporter.insertEntry,
        PerformanceEntryBuffer.insert.
      destruct (_ <? _)%nat; destruct e; simpl; auto.
    + intros ty Hty. unfold PerformanceEntryReporter.insertEntry.
      by destruct e, ty.
  - apply takeRecords_sorted.
  - by vm_compute.
Qed.

(** An instance: recording a mark appends it to the Mark buffer and leaves
    the Measure buffer as it is; the query lists the tie at 3 in buffer
    order. *)
Lemma sorted_results_stable_witness :
  let r := reporter (run [(0, CallMark "B" (Some 3))] (initial 4 4)) in
  let r' := PerformanceEntryReporter.insertEntry (PerformanceMark "C" 3) r in
  MEASURE ≠ entry_entryType (PerformanceMark "C" 3)
  ∧ PerformanceEntryBuffer.entries
      (PerformanceEntryReporter.getBuffer MEASURE r')
    = PerformanceEntryBuffer.entries
        (PerformanceEntryReporter.getBuffer MEASURE r)
  ∧ keepsRelativeOrder (gathered QueryEntries r')
      (sortEntries (gathered QueryEntries r')).
Proof.
  destruct sorted_results_stable as (Hsort & _ & _ & Hinsert & _).
  split; [discriminate|]. split.
  - apply (Hinsert (PerformanceMark "C" 3)). discriminate.
  - apply Hsort.
Defined.

(** C6 as stated fails: a measure M at 3 recorded before a mark K at 3 comes
    after it in the result of [getEntries]; the entries of equal [startTime]
    are not in recording order, and the result is not the stable sort of the
    entries in recording order. *)
Lemma getEntries_ties_across_types :
  let recorded := [PerformanceMeasure "M" 3 0; PerformanceMark "K" 3] in
  let beforeMark :=
    run [(0, CallMeasure "M" (Some 3) (Some 3) None None None)]
      (initial 1024 1024) in
  let w := run [(0, CallMark "K" (Some 3))] beforeMark in
  gathered QueryEntries (reporter beforeMark) = [PerformanceMeasure "M" 3 0]
  ∧ outcome getEntries w
    = Returned
        (toNativePerformanceEntries
           [PerformanceMark "K" 3; PerformanceMeasure "M" 3 0])
  ∧ outcome getEntries w
    ≠ Returned (toNativePerformanceEntries (sortEntries recorded))
  ∧ ¬ keepsRelativeOrder recorded
        [PerformanceMark "K" 3; PerformanceMeasure "M" 3 0].
Proof.
  split; [by vm_compute|]. split; [by vm_compute|]. split.
  - by vm_compute.
  - intros H. specialize (H 3). by vm_compute in H.
Qed.

(** ** Observer handles *)

(** The observer state a handle resolves to, if any. *)
Definition attachedObserver (observerObj : jsi_Object) (w : World)
    : option PerformanceObserver.t :=
  tryGetObserver observerObj
    ≫= λ observer, PerformanceEntryReporter.observers (reporter w) !! observer.

(** [tryGetObserver] and the unguarded cast of [disconnect] and
    [takeRecords] resolve a handle alike. *)
Lemma tryGetObserver_cast observerObj :
  tryGetObserver observerObj
  = dynamic_pointer_cast_wrapper (getNativeState observerObj).
Proof. by destruct observerObj as [[[]|]]. Qed.

(** C7.  On a handle that does not resolve to an observer (no native state,
    or the native state of another class), [observe] and [disconnect]
    return without changing the world, [takeRecords] returns the empty
    sequence and [getDroppedEntriesCount] returns 0, and none of them
    throws. *)
Theorem unresolved_handle_neutral observerObj w :
  tryGetObserver observerObj = None →
  (∀ options, observe observerObj options w = (Returned tt, w))
  ∧ disconnect observerObj w = (Returned tt, w)
  ∧ (∀ sort, takeRecords observerObj sort w = (Returned [], w))
  ∧ getDroppedEntriesCount observerObj w = (Returned 0%nat, w).
Proof.
  intros H.
  unfold observe, disconnect, takeRecords, getDroppedEntriesCount.
  rewrite <- tryGetObserver_cast, H. done.
Qed.

(** Instances: a handle with the native state of another class, and a
    handle without native state. *)
Lemma unresolved_handle_neutral_witness :
  let w := after createObserver (initial 4 4) in
  let foreign := {| nativeState := Some ForeignNativeState |} in
  tryGetObserver foreign = None
  ∧ takeRecords foreign true w = (Returned [], w)
  ∧ getDroppedEntriesCount {| nativeState := None |} w = (Returned 0%nat, w).
Proof.
  split; [reflexivity|]. split.
  - apply (unresolved_handle_neutral {| nativeState := Some ForeignNativeState |}
             (after createObserver (initial 4 4))).
    reflexivity.
  - apply (unresolved_handle_neutral {| nativeState := None |}
             (after createObserver (initial 4 4))).
    reflexivity.
Defined.

(** C8.  [observe] with options that carry neither [entryTypes] nor [type]
    returns without changing the world, on every handle: the observer of a
    valid handle keeps its state and no subscription is made. *)
Theorem observe_without_types_noop observerObj buffered durationThreshold w :
  let options :=
    {| type := None; entryTypes := None; buffered := buffered;
       durationThreshold := durationThreshold |} in
  observe observerObj options w = (Returned tt, w)
  ∧ attachedObserver observerObj (after (observe observerObj options) w)
    = attachedObserver observerObj w.
Proof.
  assert (observe observerObj
            {| type := None; entryTypes := None; buffered := buffered;
               durationThreshold := durationThreshold |} w
          = (Returned tt, w)) as H.
  { unfold observe. by destruct (tryGetObserver observerObj). }
  split; [done|]. unfold after. by rewrite H.
Qed.

(** ** The forced timestamp *)

Lemma forced_onReporter (x : option HighResTimeStamp) {A : Type}
    (f : PerformanceEntryReporter.t → A * PerformanceEntryReporter.t) :
  preserves (λ w, forcedCurrentTimeStamp_ w = x) (onReporter f).
Proof.
  intros w Hw. unfold after, onReporter. by destruct (f (reporter w)).
Qed.

Lemma forced_perform (x : option HighResTimeStamp) clock c :
  isSetCurrentTimeStamp c = false →
  preserves (λ w, forcedCurrentTimeStamp_ w = x) (perform clock c).
Proof.
  intros Hc. destruct c; try discriminate;
    unfold_operations; repeat preserves_step;
    try (by intros w); apply forced_onReporter.
Qed.

Lemma forced_run (x : option HighResTimeStamp) calls w :
  Forall (λ call : HighResTimeStamp * Call,
            isSetCurrentTimeStamp call.2 = false) calls →
  forcedCurrentTimeStamp_ w = x →
  forcedCurrentTimeStamp_ (run calls w) = x.
Proof.
  intros Hcalls. revert w.
  induction Hcalls as [|[clock c] calls Hc _ IH]; intros w Hw; [done|].
  simpl. apply IH. by apply (forced_perform x clock c).
Qed.

(** C9.  After [setCurrentTimeStampForTesting(ts)], [now()] returns [ts],
    at once and after every run of calls that does not set the forced
    timestamp again, whatever the clock reads; while no forced timestamp has
    been set, [now()] returns the reading of the clock; and [now()] changes
    nothing. *)
Theorem now_forced_timestamp clock calls :
  Forall (λ call : HighResTimeStamp * Call,
            isSetCurrentTimeStamp call.2 = false) calls →
  (∀ ts w,
     outcome (now clock) (after (setCurrentTimeStampForTesting ts) w)
     = Returned ts
     ∧ outcome (now clock)
         (run calls (after (setCurrentTimeStampForTesting ts) w))
       = Returned ts)
  ∧ (∀ w, forcedCurrentTimeStamp_ w = None →
          outcome (now clock) w = Returned clock
          ∧ outcome (now clock) (run calls w) = Returned clock)
  ∧ (∀ capacity bound,
       outcome (now clock) (run calls (initial capacity bound))
       = Returned clock)
  ∧ (∀ w, after (now clock) w = w).
Proof.
  intros Hcalls.
  assert (∀ x w, forcedCurrentTimeStamp_ w = x →
                 outcome (now clock) (run calls w)
                 = Returned (default clock x)) as Hrun.
  { intros x w Hw. unfold outcome, now. simpl.
    by rewrite (forced_run x calls w Hcalls Hw). }
  split; [|split; [|split]].
  - intros ts w. split; [done|]. by apply (Hrun (Some ts)).
  - intros w Hw. split.
    + unfold outcome, now. simpl. by rewrite Hw.
    + by apply (Hrun None).
  - intros capacity bound. by apply (Hrun None).
  - done.
Qed.

(** An instance: four calls after the forced timestamp 42 is set, and the
    same calls with none set. *)
Lemma now_forced_timestamp_witness :
  let calls :=
    [(1, CallMark "x" None); (2, CallMeasure "m" None None None (Some "x") None);
     (3, CallGetEntries); (4, CallClearMarks None)] in
  Forall (λ call : HighResTimeStamp * Call,
            isSetCurrentTimeStamp call.2 = false) calls
  ∧ outcome (now 5)
      (run calls (after (setCurrentTimeStampForTesting 42) (initial 4 4)))
    = Returned 42
  ∧ outcome (now 5) (run calls (initial 4 4)) = Returned 5.
Proof.
  assert (Forall (λ call : HighResTimeStamp * Call,
                    isSetCurrentTimeStamp call.2 = false)
            [(1, CallMark "x" None);
             (2, CallMeasure "m" None None None (Some "x") None);
             (3, CallGetEntries); (4, CallClearMarks None)]) as H.
  { repeat constructor. }
  split; [exact H|].
  destruct (now_forced_timestamp 5 _ H) as (Hset & _ & Hinitial & _).
  split; [apply Hset|apply Hinitial].
Defined.

(** ** Defaults of a single-mode subscription *)






(** * Further properties of the module *)

(** ** More on the stable sort *)

Section SortedUnique.
Context {A : Type} (key : A → Z).

Local Abbreviation sortedByKey := (StronglySorted (λ a b : A, key a ≤ key b)).

Lemma withKey_nil (l : list A) : (∀ t, filter (λ a, key a = t) l = []) → l = [].
Proof.
  destruct l as [|x l]; [done|]. intros H. specialize (H (key x)).
  by rewrite filter_cons_True in H.
Qed.

Lemma withKey_elem (l1 l2 : list A) x :
  (∀ t, filter (λ a, key a = t) l1 = filter (λ a, key a = t) l2) → x ∈ l1 → x ∈ l2.
Proof.
  intros H Hx.
  assert (x ∈ filter (λ a, key a = key x) l1) as Hin by by apply list_elem_of_filter.
  rewrite H in Hin. by apply list_elem_of_filter in Hin as [_ ?].
Qed.

(** Two lists in ascending key order that agree, for every key, on the
    entries with that key and on their order are equal. *)
Lemma sorted_withKey_eq (l1 l2 : list A) :
  sortedByKey l1 → sortedByKey l2 →
  (∀ t, filter (λ a, key a = t) l1 = filter (λ a, key a = t) l2) → l1 = l2.
Proof.
  intros H1. revert l2.
  induction H1 as [|x l1 Hs1 IH Hx]; intros l2 H2 Heq.
  - symmetry. apply withKey_nil. intros t. by rewrite <- Heq.
  - destruct H2 as [|y l2 Hs2 Hy].
    { specialize (Heq (key x)). by rewrite filter_cons_True in Heq. }
    assert (key x = key y) as Hxy.
    { assert (y ∈ x :: l1) as Hyin.
      { apply (withKey_elem (y :: l2) (x :: l1)); [done|left]. }
      assert (x ∈ y :: l2) as Hxin.
      { apply (withKey_elem (x :: l1) (y :: l2)); [done|left]. }
      apply Z.le_antisymm.
      - apply elem_of_cons in Hyin as [->|Hyin]; [done|].
        by apply (proj1 (Forall_forall _ _) Hx).
      - apply elem_of_cons in Hxin as [->|Hxin]; [done|].
        by apply (proj1 (Forall_forall _ _) Hy). }
    pose proof (Heq (key x)) as Hhead.
    rewrite filter_cons_True, (filter_cons_True _ y) in Hhead by done.
    injection Hhead as -> Htail.
    f_equal. apply IH; [done|]. intros t.
    destruct (decide (t = key y)) as [->|Hne]; [done|].
    specialize (Heq t).
    by rewrite !filter_cons_False in Heq by congruence.
Qed.

Lemma stable_sort_unique (l l' : list A) :
  sortedByKey l' → (∀ t, filter (λ a, key a = t) l' = filter (λ a, key a = t) l) →
  l' = stable_sort (λ a b, key a <? key b) l.
Proof.
  intros Hs Heq. apply sorted_withKey_eq; [done|apply stable_sort_sorted|].
  intros t. by rewrite Heq, stable_sort_filter.
Qed.

Lemma filter_sorted (P : A → Prop) `{∀ x, Decision (P x)} (l : list A) :
  sortedByKey l → sortedByKey (filter P l).
Proof.
  induction 1 as [|x l Hs IH Hx]; [constructor|].
  rewrite filter_cons. case_decide; [|done].
  constructor; [done|]. by apply Forall_filter_of.
Qed.

Lemma filter_comm (P Q : A → Prop) `{∀ x, Decision (P x)}
    `{∀ x, Decision (Q x)} (l : list A) :
  filter P (filter Q l) = filter Q (filter P l).
Proof.
  induction l as [|x l IH]; [done|].
  rewrite !(filter_cons _ x l).
  destruct (decide (P x)), (decide (Q x));
    rewrite ?filter_cons_True, ?filter_cons_False by done; by rewrite IH.
Qed.

Lemma stable_sort_filter_comm (P : A → Prop) `{∀ x, Decision (P x)}
    (l : list A) :
  filter P (stable_sort (λ a b, key a <? key b) l)
  = stable_sort (λ a b, key a <? key b) (filter P l).
Proof.
  apply stable_sort_unique.
  - apply (filter_sorted _), stable_sort_sorted.
  - intros t.
    rewrite (filter_comm (λ a, key a = t) P (stable_sort _ l)).
    rewrite stable_sort_filter. apply filter_comm.
Qed.
End SortedUnique.

(** Sortedness of an explicit list. *)
Ltac solve_sorted :=
  unfold sortedByStartTime;
  repeat match goal with
         | |- StronglySorted _ _ => constructor
         | |- Forall _ _ => constructor
         end;
  simpl; lia.

(** X1.  [sortEntries l] is the only arrangement of [l] that ascends in
    [startTime] and keeps the relative order of the entries of equal
    [startTime]: what [std::stable_sort] returns is determined by these two
    properties. *)
Theorem sortEntries_unique l l' :
  sortedByStartTime l' → keepsRelativeOrder l l' → l' = sortEntries l.
Proof. intros Hs Hk. by apply (stable_sort_unique entry_startTime). Qed.

(** An instance: the marks B at 3, C at 3, A at 5 for A, B, C recorded. *)
Lemma sortEntries_unique_witness :
  let l := [PerformanceMark "A" 5; PerformanceMark "B" 3; PerformanceMark "C" 3] in
  let l' := [PerformanceMark "B" 3; PerformanceMark "C" 3; PerformanceMark "A" 5] in
  l' = sortEntries l.
Proof.
  apply sortEntries_unique.
  - solve_sorted.
  - intros t. rewrite !filter_cons, !filter_nil. simpl.
    repeat case_decide; try reflexivity; lia.
Defined.

(** X2.  Sorting a sequence that already ascends in [startTime] returns it as
    it is; so sorting twice is sorting once. *)
Theorem sortEntries_sorted_fixed l :
  (sortedByStartTime l → sortEntries l = l)
  ∧ sortEntries (sortEntries l) = sortEntries l.
Proof.
  assert (∀ l0, sortedByStartTime l0 → sortEntries l0 = l0) as H.
  { intros l0 H0. symmetry. by apply (stable_sort_unique entry_startTime). }
  split; [apply H|]. apply H, sortEntries_sorted.
Qed.

Lemma sortEntries_sorted_fixed_witness :
  let l := [PerformanceMark "B" 3; PerformanceMeasure "M" 3 4;
            PerformanceMark "A" 5] in
  sortedByStartTime l ∧ sortEntries l = l.
Proof.
  assert (sortedByStartTime
            [PerformanceMark "B" 3; PerformanceMeasure "M" 3 4;
             PerformanceMark "A" 5]) as H.
  { solve_sorted. }
  split; [exact H|]. by apply (proj1 (sortEntries_sorted_fixed _)).
Defined.

Lemma sortEntries_filter_comm (P : PerformanceEntry → Prop)
    `{∀ e, Decision (P e)} l :
  filter P (sortEntries l) = sortEntries (filter P l).
Proof. apply (stable_sort_filter_comm entry_startTime). Qed.

(** X3.  Sorting commutes with selecting entries: the selected entries of
    the sorted sequence are the sorted selection. *)
Theorem sortEntries_filter (P : PerformanceEntry → Prop)
    `{∀ e, Decision (P e)} l :
  filter P (sortEntries l) = sortEntries (filter P l).
Proof. apply (stable_sort_filter_comm entry_startTime). Qed.

(** ** The bridge conversion *)

(** X4.  The conversion to the bridge shape loses nothing: entries with the
    same bridge shape are the same entry, and so are sequences of them. *)
Theorem toNativePerformanceEntries_injective l1 l2 :
  toNativePerformanceEntries l1 = toNativePerformanceEntries l2 → l1 = l2.
Proof.
  assert (∀ e1 e2, toNativePerformanceEntry e1 = toNativePerformanceEntry e2 →
                   e1 = e2) as Hentry.
  { intros e1 e2 H. destruct e1, e2; simpl in H; try discriminate;
      injection H; intros; by subst. }
  revert l2. induction l1 as [|e1 l1 IH]; intros [|e2 l2] H;
    try discriminate; [done|].
  injection H as He Hl. f_equal; [by apply Hentry|by apply IH].
Qed.

Lemma toNativePerformanceEntries_injective_witness :
  let l := [PerformanceMark "a" 1; PerformanceEventTiming "click" 1 2 3 4 5] in
  toNativePerformanceEntries l = toNativePerformanceEntries l ∧ l = l.
Proof.
  split; [reflexivity|].
  by apply (toNativePerformanceEntries_injective
              [PerformanceMark "a" 1; PerformanceEventTiming "click" 1 2 3 4 5]).
Defined.

(** ** The timeline types *)

(** X5.  The test [isAvailableFromTimeline] accepts exactly the types listed
    in [ENTRY_TYPES_AVAILABLE_FROM_TIMELINE], so the queries with a type and
    the queries over all timeline types range over the same buffers. *)
Theorem isAvailableFromTimeline_listed entryType :
  isAvailableFromTimeline entryType = true
  ↔ entryType ∈ ENTRY_TYPES_AVAILABLE_FROM_TIMELINE.
Proof.
  unfold ENTRY_TYPES_AVAILABLE_FROM_TIMELINE. rewrite !elem_of_cons, elem_of_nil.
  destruct entryType; simpl; split; try done; try tauto;
    intros [?|[?|[]]]; done.
Qed.

(** ** Relations between the timeline queries *)

Lemma filter_native_name name (l : list PerformanceEntry) :
  filter (λ x, native_name x = name) (toNativePerformanceEntries l)
  = toNativePerformanceEntries (filter (λ e, entry_name e = name) l).
Proof.
  unfold toNativePerformanceEntries.
  induction l as [|e l IH]; [done|]. simpl.
  rewrite !filter_cons, IH.
  assert (native_name (toNativePerformanceEntry e) = entry_name e) as ->
    by by destruct e.
  by case_decide.
Qed.

Lemma filter_native_entryType ty (l : list PerformanceEntry) :
  filter (λ x, native_entryType x = ty) (toNativePerformanceEntries l)
  = toNativePerformanceEntries (filter (λ e, entry_entryType e = ty) l).
Proof.
  unfold toNativePerformanceEntries.
  induction l as [|e l IH]; [done|]. simpl.
  rewrite !filter_cons, IH.
  assert (native_entryType (toNativePerformanceEntry e) = entry_entryType e)
    as -> by by destruct e.
  by case_decide.
Qed.

(** X6.  A query by name returns the entries of that name of the query
    without the name, in the same order: of [getEntries] when no type is
    given, of [getEntriesByType] when one is. *)
Theorem getEntriesByName_filters entryName entryType w :
  ∃ unnamed,
    outcome
      match entryType with
      | Some ty => getEntriesByType ty
      | None => getEntries
      end w = Returned unnamed
    ∧ outcome (getEntriesByName entryName entryType) w
      = Returned (filter (λ x, native_name x = entryName) unnamed).
Proof.
  destruct entryType as [ty|]; (eexists; split; [reflexivity|]);
    unfold outcome, getEntriesByName, readReporter, mbind, Eff_bind; simpl;
    f_equal; rewrite filter_native_name, sortEntries_filter_comm; do 2 f_equal.
  - unfold gatherEntriesByName, gatherEntriesByType.
    by destruct (isAvailableFromTimeline ty).
  - rewrite gatherEntries_buffers. by rewrite filter_app.
Qed.

Lemma filter_typed (a b : PerformanceEntryType) (l : list PerformanceEntry) :
  Forall (λ e, entry_entryType e = a) l →
  filter (λ e, entry_entryType e = b) l = if decide (a = b) then l else [].
Proof.
  induction 1 as [|e l He Hl IH]; [by case_decide|].
  rewrite filter_cons, IH, He. by case_decide.
Qed.

(** X7.  After every run of the module, a query by type returns the entries
    of that type of [getEntries], in the same order; for a type that is not
    on the timeline there are none. *)
Theorem getEntriesByType_filters calls capacity bound entryType :
  let w := run calls (initial capacity bound) in
  ∃ all,
    outcome getEntries w = Returned all
    ∧ outcome (getEntriesByType entryType) w
      = Returned (filter (λ x, native_entryType x = entryType) all).
Proof.
  intros w. eexists. split; [reflexivity|].
  unfold outcome, getEntriesByType, readReporter, mbind, Eff_bind. simpl.
  f_equal. rewrite filter_native_entryType, sortEntries_filter_comm. do 2 f_equal.
  pose proof (buffersTyped_run calls _ (buffersTyped_initial capacity bound))
    as Htyped.
  rewrite gatherEntries_buffers, filter_app.
  rewrite (filter_typed MARK _ _ (Htyped MARK)),
    (filter_typed MEASURE _ _ (Htyped MEASURE)).
  unfold gatherEntriesByType, PerformanceEntryReporter.getEntries.
  destruct entryType; simpl; by rewrite ?app_nil_r.
Qed.

(** ** What throws, and what a call leaves unchanged *)

(** [c] returns on every world. *)
Definition neverThrows {A : Type} (c : Eff A) : Prop :=
  ∀ w, ∃ a, outcome c w = Returned a.

Lemma neverThrows_ret {A : Type} (a : A) : neverThrows (mret a).
Proof. intros w. by exists a. Qed.

Lemma neverThrows_bind {A B : Type} (c : Eff A) (k : A → Eff B) :
  neverThrows c → (∀ a, neverThrows (k a)) → neverThrows (c ≫= k).
Proof.
  intros Hc Hk w. destruct (Hc w) as [a Ha].
  unfold outcome, mbind, Eff_bind in *.
  destruct (c w) as [[a'|msg] w']; simpl in *; [|done].
  apply Hk.
Qed.

Lemma neverThrows_discard {A : Type} (c : Eff A) :
  neverThrows c → neverThrows (discard c).
Proof.
  intros Hc. apply neverThrows_bind; [done|]. intros _. apply neverThrows_ret.
Qed.

Lemma neverThrows_readReporter {A : Type} (f : PerformanceEntryReporter.t → A) :
  neverThrows (readReporter f).
Proof. intros w. by eexists. Qed.

Lemma neverThrows_onReporter {A : Type}
    (f : PerformanceEntryReporter.t → A * PerformanceEntryReporter.t) :
  neverThrows (onReporter f).
Proof.
  intros w. unfold outcome, onReporter. destruct (f (reporter w)). by eexists.
Qed.

Lemma neverThrows_now clock : neverThrows (now clock).
Proof. intros w. by eexists. Qed.

Ltac neverThrows_step :=
  lazymatch goal with
  | |- neverThrows (mret _) => apply neverThrows_ret
  | |- neverThrows (discard _) => apply neverThrows_discard
  | |- neverThrows (_ ≫= _) => apply neverThrows_bind; [|intros ?]
  | |- neverThrows (readReporter _) => apply neverThrows_readReporter
  | |- neverThrows (onReporter _) => apply neverThrows_onReporter
  | |- neverThrows (now _) => apply neverThrows_now
  | |- neverThrows (match ?x with _ => _ end) => destruct x
  end.

Definition isMeasureCall (c : Call) : bool :=
  match c with
  | CallMeasure _ _ _ _ _ _ | CallMeasureWithResult _ _ _ _ _ _ => true
  | _ => false
  end.

Lemma neverThrows_perform clock c :
  isMeasureCall c = false → neverThrows (perform clock c).
Proof.
  intros Hc. destruct c; try discriminate;
    unfold_operations; repeat neverThrows_step.
  - intros w. by eexists.
Qed.

Lemma discard_run {A : Type} (c : Eff A) w :
  discard c w
  = (match outcome c w with
     | Returned _ => Returned tt
     | Thrown msg => Thrown msg
     end, after c w).
Proof.
  unfold discard, outcome, after, mbind, Eff_bind.
  by destruct (c w) as [[a|msg] w'].
Qed.

(** X8.  Of all the calls of the module only the two measure operations can
    throw; a call that throws has changed nothing, and its message is the
    mark-not-found message of some mark. *)
Theorem only_measure_throws clock c w msg :
  outcome (perform clock c) w = Thrown msg →
  isMeasureCall c = true
  ∧ after (perform clock c) w = w
  ∧ ∃ m, msg = markNotFound m.
Proof.
  intros H.
  destruct (isMeasureCall c) eqn:Hc.
  - split; [done|].
    destruct c; try discriminate; simpl in *;
      unfold outcome, after in *; rewrite discard_run in *; simpl in *.
    + destruct (outcome (measure clock name startTime endTime duration
                          startMark endMark) w) as [|msg'] eqn:Hm; [done|].
      apply measure_thrown in Hm as (m & Hcons & ->).
      unfold after. rewrite (measure_consults_absent _ _ _ _ _ _ _ _ _ Hcons).
      split; [done|]. exists m. by inversion H.
    + destruct (outcome (measureWithResult clock name startTime endTime
                          duration startMark endMark) w) as [|msg'] eqn:Hm;
        [done|].
      pose proof Hm as Hm'.
      apply measureWithResult_thrown in Hm as (m & Hn & ->).
      destruct (measureWithResult_names_absent clock name startTime endTime
                  duration startMark endMark w m Hn) as (m' & _ & Heq).
      unfold after. rewrite Heq. split; [done|]. exists m. by inversion H.
  - destruct (neverThrows_perform clock c Hc w) as [a Ha]. congruence.
Qed.

Lemma only_measure_throws_witness :
  let c := CallMeasure "m" None None None None (Some "end") in
  let w := initial 4 4 in
  outcome (perform 0 c) w = Thrown "The mark 'end' does not exist."
  ∧ isMeasureCall c = true ∧ after (perform 0 c) w = w.
Proof.
  split; [reflexivity|].
  destruct (only_measure_throws 0
              (CallMeasure "m" None None None None (Some "end"))
              (initial 4 4) "The mark 'end' does not exist." eq_refl)
    as (H1 & H2 & _).
  by split.
Defined.

Definition isQuery (c : Call) : bool :=
  match c with
  | CallNow | CallGetEntries | CallGetEntriesByName _ _
  | CallGetEntriesByType _ | CallGetEventCounts
  | CallGetDroppedEntriesCount _ => true
  | _ => false
  end.

Lemma setObservers_same (r : PerformanceEntryReporter.t) :
  PerformanceEntryReporter.setObservers (PerformanceEntryReporter.observers r) r
  = r.
Proof. by destruct r. Qed.

(** X9.  The queries ([now], [getEntries], [getEntriesByName],
    [getEntriesByType], [getEventCounts], [getDroppedEntriesCount]) leave
    the module, the reporter and every observer as they were. *)
Theorem queries_read_only clock c w :
  isQuery c = true → after (perform clock c) w = w.
Proof.
  intros Hc. destruct c; try discriminate; try done.
  simpl. unfold after. rewrite discard_run. simpl.
  unfold after, getDroppedEntriesCount.
  destruct (tryGetObserver observerObj) as [observer|]; [|done].
  unfold onObserver, onReporter.
  destruct (PerformanceEntryReporter.observers (reporter w) !! observer)
    as [o|] eqn:Ho; simpl.
  - rewrite insert_id by done. rewrite setObservers_same. by destruct w.
  - by destruct w.
Qed.

Lemma queries_read_only_witness :
  let w := after createObserver (initial 4 4) in
  let c :=
    CallGetDroppedEntriesCount
      {| nativeState := Some (PerformanceObserverWrapper 0) |} in
  isQuery c = true ∧ after (perform 9 c) w = w.
Proof.
  split; [reflexivity|].
  by apply (queries_read_only 9
              (CallGetDroppedEntriesCount
                 {| nativeState := Some (PerformanceObserverWrapper 0) |})).
Defined.

(** ** Marks and measures together *)

(** X10.  [mark] returns the start time given, or else what [now()] returns
    (the forced timestamp if set, or else the clock), and a later [measure]
    that names the mark as its start, with an explicit end, stores and
    returns the interval from that timestamp: the latest mark of a name is
    the one a measure resolves. *)
Theorem mark_measure_round_trip clock clock' name startTime measureName
    endTime duration endMark w :
  let t := default (default clock (forcedCurrentTimeStamp_ w)) startTime in
  let w1 := after (markWithResult clock name startTime) w in
  outcome (markWithResult clock name startTime) w = Returned t
  ∧ measure clock' measureName None (Some endTime) duration (Some name)
      endMark w1
    = recordedMeasure measureName t endTime w1
  ∧ outcome
      (measure clock' measureName None (Some endTime) duration (Some name)
         endMark) w1
    = Returned (t, endTime - t).
Proof.
  intros t w1.
  assert (measure clock' measureName None (Some endTime) duration (Some name)
            endMark w1
          = recordedMeasure measureName t endTime w1) as H.
  { apply (measure_from_start _ _ None (Some endTime) _ (Some name) _ _ t).
    apply getMarkTime_reportMark. }
  split; [done|]. split; [done|]. unfold outcome. by rewrite H.
Qed.

(** X11.  A [measure] with a duration and no end time returns the resolved
    start and exactly that duration. *)
Theorem measure_duration_exact clock name startTime duration startMark
    endMark w s :
  resolvedStart startTime startMark (reporter w) = Some s →
  outcome (measure clock name startTime None (Some duration) startMark endMark)
    w
  = Returned (s, duration).
Proof.
  intros Hs. unfold outcome.
  rewrite (measure_from_start _ _ _ _ _ _ _ _ s Hs). simpl.
  do 2 f_equal. lia.
Qed.

Lemma measure_duration_exact_witness :
  let w := after (markWithResult 0 "x" (Some 10)) (initial 4 4) in
  resolvedStart None (Some "x") (reporter w) = Some 10
  ∧ outcome (measure 99 "m" None None (Some (-3)) (Some "x") (Some "nope")) w
    = Returned (10, -3).
Proof.
  split; [reflexivity|].
  by apply (measure_duration_exact 99 "m" None (-3) (Some "x") (Some "nope")
              (after (markWithResult 0 "x" (Some 10)) (initial 4 4)) 10).
Defined.

(** What a [measure] call returns or throws depends on the world through
    the mark index and the forced timestamp alone. *)
Lemma measure_outcome_depends clock name startTime endTime duration startMark
    endMark w w' :
  PerformanceEntryReporter.markIndex (reporter w)
  = PerformanceEntryReporter.markIndex (reporter w') →
  forcedCurrentTimeStamp_ w = forcedCurrentTimeStamp_ w' →
  outcome (measure clock name startTime endTime duration startMark endMark) w
  = outcome (measure clock name startTime endTime duration startMark endMark)
      w'.
Proof.
  intros Hix Hforced.
  assert (∀ m, PerformanceEntryReporter.getMarkTime m (reporter w)
               = PerformanceEntryReporter.getMarkTime m (reporter w')) as Hm.
  { intros m. unfold PerformanceEntryReporter.getMarkTime. by rewrite Hix. }
  assert (resolvedStart startTime startMark (reporter w)
          = resolvedStart startTime startMark (reporter w')) as Hstart.
  { unfold resolvedStart. destruct startTime, startMark; auto. }
  unfold outcome.
  destruct (resolvedStart startTime startMark (reporter w)) as [s|] eqn:Hs.
  - rewrite (measure_from_start _ _ _ _ _ _ _ w s Hs).
    rewrite (measure_from_start _ _ _ _ _ _ _ w' s) by by rewrite <- Hstart.
    destruct endTime, duration, endMark as [m|]; simpl; try done.
    + rewrite <- Hm.
      by destruct (PerformanceEntryReporter.getMarkTime m (reporter w)).
    + by rewrite Hforced.
  - destruct startTime; [done|]. destruct startMark as [m|]; [|done].
    simpl in Hs, Hstart.
    rewrite measure_start_absent by done.
    by rewrite measure_start_absent by by rewrite <- Hstart.
Qed.

(** ** Clearing *)

(** X12.  [clearMeasures] does not touch the marks and [clearMarks] does not
    touch the measures: the queries for the other type return what they
    returned, and after [clearMeasures] every [measure] call returns or
    throws as it would have before. *)
Theorem clear_leaves_other_type entryName w :
  outcome (getEntriesByType MEASURE) (after (clearMarks entryName) w)
  = outcome (getEntriesByType MEASURE) w
  ∧ (∀ n,
       outcome (getEntriesByName n (Some MEASURE))
         (after (clearMarks entryName) w)
       = outcome (getEntriesByName n (Some MEASURE)) w)
  ∧ outcome (getEntriesByType MARK) (after (clearMeasures entryName) w)
    = outcome (getEntriesByType MARK) w
  ∧ (∀ n,
       outcome (getEntriesByName n (Some MARK))
         (after (clearMeasures entryName) w)
       = outcome (getEntriesByName n (Some MARK)) w)
  ∧ (∀ clock name startTime endTime duration startMark endMark,
       outcome
         (measure clock name startTime endTime duration startMark endMark)
         (after (clearMeasures entryName) w)
       = outcome
           (measure clock name startTime endTime duration startMark endMark)
           w).
Proof.
  repeat split; intros; try (by destruct entryName).
  apply measure_outcome_depends; by destruct entryName.
Qed.

Lemma filter_name_cleared (n n' : string) (l : list PerformanceEntry) :
  filter (λ e, entry_name e = n') (filter (λ e, entry_name e ≠ n) l)
  = if decide (n' = n) then [] else filter (λ e, entry_name e = n') l.
Proof.
  induction l as [|e l IH]; [by case_decide|].
  rewrite !(filter_cons _ e l).
  destruct (decide (entry_name e ≠ n)) as [Hne|Heq%dec_stable].
  - rewrite filter_cons, IH. repeat case_decide; congruence.
  - rewrite IH. repeat case_decide; congruence.
Qed.

(** X13.  [clearMarks()] empties the marks: the Mark queries return nothing
    and no mark resolves.  [clearMarks(name)] removes the marks of that name
    and no other: the query by that name returns nothing, the queries by
    another name return what they returned, and the marks of other names
    resolve as before. *)
Theorem clearMarks_removes w :
  (let w' := after (clearMarks None) w in
   outcome (getEntriesByType MARK) w' = Returned []
   ∧ ∀ m, PerformanceEntryReporter.getMarkTime m (reporter w') = None)
  ∧ (∀ n,
       let w' := after (clearMarks (Some n)) w in
       outcome (getEntriesByName n (Some MARK)) w' = Returned []
       ∧ PerformanceEntryReporter.getMarkTime n (reporter w') = None
       ∧ ∀ n', n' ≠ n →
           outcome (getEntriesByName n' (Some MARK)) w'
           = outcome (getEntriesByName n' (Some MARK)) w
           ∧ PerformanceEntryReporter.getMarkTime n' (reporter w')
             = PerformanceEntryReporter.getMarkTime n' (reporter w)).
Proof.
  split; [split; [done|]|].
  - intros m. apply lookup_empty.
  - intros n w'. split; [|split].
    + unfold outcome, getEntriesByName, readReporter, mbind, Eff_bind. simpl.
      unfold gatherEntriesByName, PerformanceEntryReporter.getEntriesByName,
        PerformanceEntryBuffer.queryByName. simpl.
      rewrite filter_name_cleared. by case_decide.
    + apply lookup_delete_eq.
    + intros n' Hn. split.
      * unfold outcome, getEntriesByName, readReporter, mbind, Eff_bind. simpl.
        unfold gatherEntriesByName, PerformanceEntryReporter.getEntriesByName,
          PerformanceEntryBuffer.queryByName. simpl.
        rewrite filter_name_cleared. by case_decide.
      * unfold PerformanceEntryReporter.getMarkTime. simpl.
        by apply lookup_delete_ne.
Qed.

Lemma clearMarks_removes_witness :
  let w :=
    run [(0, CallMark "a" (Some 1)); (0, CallMark "b" (Some 2))] (initial 4 4) in
  let w' := after (clearMarks (Some "a")) w in
  "b" ≠ "a"
  ∧ outcome (getEntriesByName "a" (Some MARK)) w' = Returned []
  ∧ outcome (getEntriesByName "b" (Some MARK)) w'
    = Returned (toNativePerformanceEntries [PerformanceMark "b" 2])
  ∧ PerformanceEntryReporter.getMarkTime "b" (reporter w') = Some 2.
Proof.
  destruct (clearMarks_removes
              (run [(0, CallMark "a" (Some 1)); (0, CallMark "b" (Some 2))]
                 (initial 4 4))) as [_ H].
  destruct (H "a") as (Ha & _ & Hother).
  destruct (Hother "b") as [Hb Hix]; [discriminate|].
  split; [discriminate|]. split; [exact Ha|].
  split; [exact (eq_trans Hb eq_refl)|exact (eq_trans Hix eq_refl)].
Defined.

(** ** Subscriptions in multiple mode *)

(** X14.  When [entryTypes] is given, [observe] subscribes to the set of the
    listed types: the order and the repetitions in the list, and the
    options [type], [buffered] and [durationThreshold], make no
    difference. *)
Theorem observe_entryTypes_as_set observerObj types types' ty ty' b b' d d' w :
  (∀ x, x ∈ types ↔ x ∈ types') →
  observe observerObj
    {| type := ty; entryTypes := Some types; buffered := b;
       durationThreshold := d |} w
  = observe observerObj
      {| type := ty'; entryTypes := Some types'; buffered := b';
         durationThreshold := d' |} w.
Proof.
  intros H. unfold observe.
  destruct (tryGetObserver observerObj); [|done]. simpl.
  assert (list_to_set types =@{gset PerformanceEntryType} list_to_set types')
    as ->; [|done].
  apply set_eq. intros x. by rewrite !elem_of_list_to_set.
Qed.

Lemma observe_entryTypes_as_set_witness :
  let w := after createObserver (initial 4 4) in
  let handle := {| nativeState := Some (PerformanceObserverWrapper 0) |} in
  (∀ x, x ∈ [MARK; MEASURE; MARK] ↔ x ∈ [MEASURE; MARK])
  ∧ observe handle
      {| type := Some EVENT; entryTypes := Some [MARK; MEASURE; MARK];
         buffered := Some true; durationThreshold := Some 7 |} w
    = observe handle
        {| type := None; entryTypes := Some [MEASURE; MARK]; buffered := None;
           durationThreshold := None |} w.
Proof.
  assert (∀ x, x ∈ [MARK; MEASURE; MARK] ↔ x ∈ [MEASURE; MARK]) as H.
  { intros x. rewrite !elem_of_cons, elem_of_nil. tauto. }
  split; [exact H|].
  by apply (observe_entryTypes_as_set
              {| nativeState := Some (PerformanceObserverWrapper 0) |}).
Defined.

(** ** Observers are created fresh *)

(** No observer is stored at or beyond the next identifier. *)
Definition observersFresh (r : PerformanceEntryReporter.t) : Prop :=
  ∀ id, (PerformanceEntryReporter.nextObserverId r ≤ id)%nat →
        PerformanceEntryReporter.observers r !! id = None.

Lemma observersFresh_same r r' :
  PerformanceEntryReporter.nextObserverId r'
  = PerformanceEntryReporter.nextObserverId r →
  (∀ id, PerformanceEntryReporter.observers r !! id = None →
         PerformanceEntryReporter.observers r' !! id = None) →
  observersFresh r → observersFresh r'.
Proof. intros Hnext Hobs H id Hid. apply Hobs, H. by rewrite <- Hnext. Qed.

Lemma observersFresh_notify e r :
  observersFresh r → observersFresh (PerformanceEntryReporter.notify e r).
Proof.
  apply observersFresh_same; [done|]. intros id Hid. simpl.
  by rewrite lookup_fmap, Hid.
Qed.

Lemma observersFresh_insertEntry e r :
  observersFresh r → observersFresh (PerformanceEntryReporter.insertEntry e r).
Proof. by apply observersFresh_same. Qed.

Lemma observersFresh_reportMark name t r :
  observersFresh r →
  observersFresh (PerformanceEntryReporter.reportMark name t r).2.
Proof.
  intros H. simpl. apply observersFresh_notify.
  revert H. by apply observersFresh_same.
Qed.

Lemma observersFresh_reportMeasure name s e r :
  observersFresh r →
  observersFresh (PerformanceEntryReporter.reportMeasure name s e r).2.
Proof. intros H. simpl. by apply observersFresh_notify, observersFresh_insertEntry. Qed.

Lemma observersFresh_reportEvent n s d ps pe i r :
  observersFresh r →
  observersFresh (PerformanceEntryReporter.reportEvent n s d ps pe i r).
Proof.
  intros H. apply observersFresh_notify, observersFresh_insertEntry.
  revert H. by apply observersFresh_same.
Qed.

Lemma observersFresh_reportResourceTiming n s d f rq cs ce rs re st r :
  observersFresh r →
  observersFresh
    (PerformanceEntryReporter.reportResourceTiming n s d f rq cs ce rs re st r).
Proof. intros H. by apply observersFresh_notify, observersFresh_insertEntry. Qed.

Lemma observersFresh_clearEntries ty r :
  observersFresh r → observersFresh (PerformanceEntryReporter.clearEntries ty r).
Proof. apply observersFresh_same; by destruct ty. Qed.

Lemma observersFresh_clearEntriesByName ty name r :
  observersFresh r →
  observersFresh (PerformanceEntryReporter.clearEntriesByName ty name r).
Proof. apply observersFresh_same; by destruct ty. Qed.

Lemma observersFresh_clearEventCounts r :
  observersFresh r → observersFresh (PerformanceEntryReporter.clearEventCounts r).
Proof. by apply observersFresh_same. Qed.

Lemma observersFresh_createObserver r :
  observersFresh r →
  observersFresh (PerformanceEntryReporter.createObserver r).2.
Proof.
  intros H id Hid. simpl in *.
  rewrite lookup_insert_ne by lia. apply H. lia.
Qed.

Lemma observersFresh_update observer o r :
  is_Some (PerformanceEntryReporter.observers r !! observer) →
  observersFresh r →
  observersFresh
    (PerformanceEntryReporter.setObservers
       (<[observer := o]> (PerformanceEntryReporter.observers r)) r).
Proof.
  intros [o0 Ho]. apply observersFresh_same; [done|].
  intros id Hid. simpl. rewrite lookup_insert_ne; [done|]. congruence.
Qed.

Lemma observersFresh_onReporter {A : Type}
    (f : PerformanceEntryReporter.t → A * PerformanceEntryReporter.t) :
  (∀ r, observersFresh r → observersFresh (f r).2) →
  preserves (λ w, observersFresh (reporter w)) (onReporter f).
Proof.
  intros Hf w Hw. unfold after, onReporter.
  specialize (Hf (reporter w) Hw). by destruct (f (reporter w)).
Qed.

Lemma observersFresh_perform clock c :
  preserves (λ w, observersFresh (reporter w)) (perform clock c).
Proof.
  destruct c; unfold_operations; repeat preserves_step;
    try (by intros w);
    apply observersFresh_onReporter; intros r Hr; cbv beta;
    first
      [ by apply observersFresh_reportMark
      | by apply observersFresh_reportMeasure
      | by apply observersFresh_createObserver
      | by apply observersFresh_reportEvent
      | by apply observersFresh_reportResourceTiming
      | by apply observersFresh_clearEntries
      | by apply observersFresh_clearEntriesByName
      | by apply observersFresh_clearEventCounts
      | destruct (PerformanceEntryReporter.observers r !! _) eqn:Ho;
        cbn [snd]; [by apply observersFresh_update|done] ].
Qed.

Lemma observersFresh_run calls w :
  observersFresh (reporter w) → observersFresh (reporter (run calls w)).
Proof.
  revert w. induction calls as [|[clock c] calls IH]; intros w Hw; [done|].
  simpl. apply IH. by apply observersFresh_perform.
Qed.

(** X15.  After every run of the module, [createObserver] returns a handle
    that resolved to no observer before and now resolves to a new one, with
    no pending records and no dropped entries; every handle that resolved
    to an observer before still resolves to it, in the same state, and the
    timeline is as it was. *)
Theorem createObserver_fresh calls capacity bound :
  let w := run calls (initial capacity bound) in
  let w' := after createObserver w in
  ∃ handle,
    outcome createObserver w = Returned handle
    ∧ attachedObserver handle w = None
    ∧ is_Some (attachedObserver handle w')
    ∧ (∀ sort, outcome (takeRecords handle sort) w' = Returned [])
    ∧ outcome (getDroppedEntriesCount handle) w' = Returned 0%nat
    ∧ (∀ other o, attachedObserver other w = Some o →
                  attachedObserver other w' = Some o)
    ∧ outcome getEntries w' = outcome getEntries w.
Proof.
  intros w w'.
  pose proof (observersFresh_run calls (initial capacity bound)) as Hfresh.
  specialize (Hfresh (λ id _, lookup_empty id)). fold w in Hfresh.
  eexists. split; [reflexivity|].
  assert (PerformanceEntryReporter.observers (reporter w)
            !! PerformanceEntryReporter.nextObserverId (reporter w) = None)
    as Hnew by by apply Hfresh.
  assert (PerformanceEntryReporter.observers (reporter w')
            !! PerformanceEntryReporter.nextObserverId (reporter w)
          = Some (PerformanceObserver.create
                    (PerformanceEntryReporter.observerQueueBound (reporter w))))
    as Hcreated by apply lookup_insert_eq.
  split; [exact Hnew|]. split; [by eexists|].
  split; [|split; [|split]].
  - intros sort. unfold outcome, takeRecords, onObserver, onReporter, mbind,
      Eff_bind. cbn [dynamic_pointer_cast_wrapper getNativeState nativeState].
    rewrite Hcreated. by destruct sort.
  - unfold outcome, getDroppedEntriesCount. rewrite tryGetObserver_cast.
    cbn [dynamic_pointer_cast_wrapper getNativeState nativeState].
    unfold onObserver, onReporter. by rewrite Hcreated.
  - intros other o. unfold attachedObserver.
    destruct (tryGetObserver other) as [id|]; [|done]. simpl.
    intros Ho. rewrite lookup_insert_ne; [done|]. congruence.
  - done.
Qed.

(** An instance: a second observer is created beside a subscribed one. *)
Lemma createObserver_fresh_witness :
  let first := {| nativeState := Some (PerformanceObserverWrapper 0) |} in
  let calls :=
    [(0, CallCreateObserver);
     (1, CallObserve first
           {| type := None; entryTypes := Some [MARK]; buffered := None;
              durationThreshold := None |});
     (2, CallMark "x" None)] in
  let w := run calls (initial 4 4) in
  ∃ o,
    attachedObserver first w = Some o
    ∧ PerformanceObserver.queue o = [PerformanceMark "x" 2]
    ∧ attachedObserver first (after createObserver w) = Some o.
Proof.
  destruct (createObserver_fresh
              [(0, CallCreateObserver);
               (1, CallObserve
                     {| nativeState := Some (PerformanceObserverWrapper 0) |}
                     {| type := None; entryTypes := Some [MARK];
                        buffered := None; durationThreshold := None |});
               (2, CallMark "x" None)] 4 4)
    as (handle & _ & _ & _ & _ & _ & Hkept & _).
  eexists. split; [reflexivity|]. split; [reflexivity|].
  apply Hkept. reflexivity.
Defined.

(** ** Memory and startup information *)

Section Doubles.
(** The type [double], the conversion [static_cast<double>] from a 64-bit
    integer, and [std::isnan]. *)
Context {double : Type} (toDouble : Z → double) (isnan : double → bool).

(** [heapInfo] is the map [rt.instrumentation().getHeapInfo(false)]
    returns; the loop assigns [heapInfoToJs[entry.first]] for each of its
    entries. *)
Definition getSimpleMemoryInfo (heapInfo : gmap string Z) : gmap string double :=
  map_fold
    (λ (key : string) (value : Z) (heapInfoToJs : gmap string double),
       <[key := toDouble value]> heapInfoToJs)
    ∅ heapInfo.

(** The readings of [ReactMarker::StartupLogger]. *)
Record StartupLogger : Type := {
  getAppStartupStartTime : double;
  getInitReactRuntimeStartTime : double;
  getRunJSBundleStartTime : double;
  getRunJSBundleEndTime : double;
  getInitReactRuntimeEndTime : double;
  getAppStartupEndTime : double
}.

(** [if (!std::isnan(value)) result[key] = value;] *)
Definition setUnlessNaN (key : string) (value : double)
    (result : gmap string double) : gmap string double :=
  if negb (isnan value) then <[key := value]> result else result.

Definition getReactNativeStartupTiming (startupLogger : StartupLogger)
    : gmap string double :=
  let result : gmap string double := ∅ in
  let result :=
    if negb (isnan (getAppStartupStartTime startupLogger))
    then <["startTime" := getAppStartupStartTime startupLogger]> result
    else if negb (isnan (getInitReactRuntimeStartTime startupLogger))
    then <["startTime" := getInitReactRuntimeStartTime startupLogger]> result
    else result in
  let result :=
    setUnlessNaN "initializeRuntimeStart"
      (getInitReactRuntimeStartTime startupLogger) result in
  let result :=
    setUnlessNaN "executeJavaScriptBundleEntryPointStart"
      (getRunJSBundleStartTime startupLogger) result in
  let result :=
    setUnlessNaN "executeJavaScriptBundleEntryPointEnd"
      (getRunJSBundleEndTime startupLogger) result in
  let result :=
    setUnlessNaN "initializeRuntimeEnd"
      (getInitReactRuntimeEndTime startupLogger) result in
  let result :=
    setUnlessNaN "endTime" (getAppStartupEndTime startupLogger) result in
  result.

(** X16.  [getSimpleMemoryInfo] returns one entry for each entry of the heap
    information, under the same key, with the value converted to a double,
    and no other entry. *)
Theorem getSimpleMemoryInfo_lookup (heapInfo : gmap string Z) :
  getSimpleMemoryInfo heapInfo = toDouble <$> heapInfo
  ∧ ∀ key, getSimpleMemoryInfo heapInfo !! key = toDouble <$> heapInfo !! key.
Proof.
  assert (getSimpleMemoryInfo heapInfo = toDouble <$> heapInfo) as H.
  { unfold getSimpleMemoryInfo.
    induction heapInfo as [|key value heapInfo Hkey IH] using map_ind.
    - by rewrite map_fold_empty, fmap_empty.
    - rewrite map_fold_insert_L; [by rewrite IH, fmap_insert| |done].
      intros j1 j2 z1 z2 y Hne _ _. by apply insert_insert_ne. }
  split; [done|]. intros key. by rewrite H, lookup_fmap.
Qed.

Lemma setUnlessNaN_lookup key value (result : gmap string double) k :
  setUnlessNaN key value result !! k
  = if decide (key = k)
    then (if isnan value then result !! k else Some value)
    else result !! k.
Proof.
  unfold setUnlessNaN. destruct (isnan value); simpl.
  - by case_decide.
  - apply lookup_insert.
Qed.

(** X17.  No value of the startup timing is a NaN, and its keys are among the
    six names the function writes. *)
Theorem getReactNativeStartupTiming_no_NaN (startupLogger : StartupLogger)
    key value :
  getReactNativeStartupTiming startupLogger !! key = Some value →
  isnan value = false
  ∧ key ∈ ["startTime"; "initializeRuntimeStart";
           "executeJavaScriptBundleEntryPointStart";
           "executeJavaScriptBundleEntryPointEnd"; "initializeRuntimeEnd";
           "endTime"].
Proof.
  unfold getReactNativeStartupTiming. cbv zeta.
  rewrite !setUnlessNaN_lookup.
  destruct (isnan (getAppStartupStartTime startupLogger)) eqn:H1,
    (isnan (getInitReactRuntimeStartTime startupLogger)) eqn:H2,
    (isnan (getRunJSBundleStartTime startupLogger)) eqn:H3,
    (isnan (getRunJSBundleEndTime startupLogger)) eqn:H4,
    (isnan (getInitReactRuntimeEndTime startupLogger)) eqn:H5,
    (isnan (getAppStartupEndTime startupLogger)) eqn:H6;
    simpl; rewrite ?lookup_insert, ?lookup_empty;
    repeat case_decide; intros Hv; simplify_eq;
    (split; [done|]); rewrite !elem_of_cons; tauto.
Qed.

(** X18.  The start time of the startup timing is the application start when
    that is a number, else the runtime initialisation start when that is a
    number, else absent; so whenever [initializeRuntimeStart] is reported,
    [startTime] is. *)
Theorem getReactNativeStartupTiming_startTime (startupLogger : StartupLogger) :
  let result := getReactNativeStartupTiming startupLogger in
  result !! "startTime"
  = (if isnan (getAppStartupStartTime startupLogger)
     then (if isnan (getInitReactRuntimeStartTime startupLogger)
           then None
           else Some (getInitReactRuntimeStartTime startupLogger))
     else Some (getAppStartupStartTime startupLogger))
  ∧ (is_Some (result !! "initializeRuntimeStart") →
     is_Some (result !! "startTime")).
Proof.
  unfold getReactNativeStartupTiming. cbv zeta.
  rewrite !setUnlessNaN_lookup.
  destruct (isnan (getAppStartupStartTime startupLogger)) eqn:H1,
    (isnan (getInitReactRuntimeStartTime startupLogger)) eqn:H2;
    simpl; rewrite ?lookup_insert, ?lookup_empty;
    repeat case_decide; try done; split; try done;
    intros [? ?]; try done; by eexists.
Qed.
End Doubles.

(** Doubles for the instances below: [None] stands for a NaN. *)
Definition isNoneDouble (d : option Z) : bool := bool_decide (d = None).

(** An instance: the application start is a NaN, the runtime start is 5. *)
Lemma getReactNativeStartupTiming_no_NaN_witness :
  let startupLogger :=
    {| getAppStartupStartTime := None;
       getInitReactRuntimeStartTime := Some 5;
       getRunJSBundleStartTime := None; getRunJSBundleEndTime := None;
       getInitReactRuntimeEndTime := None;
       getAppStartupEndTime := Some 9 |} in
  getReactNativeStartupTiming isNoneDouble startupLogger !! "startTime"
  = Some (Some 5)
  ∧ isNoneDouble (Some 5) = false.
Proof.
  split; [reflexivity|].
  apply (getReactNativeStartupTiming_no_NaN isNoneDouble
           {| getAppStartupStartTime := None;
              getInitReactRuntimeStartTime := Some 5;
              getRunJSBundleStartTime := None; getRunJSBundleEndTime := None;
              getInitReactRuntimeEndTime := None;
              getAppStartupEndTime := Some 9 |} "startTime" (Some 5)).
  reflexivity.
Defined.

Lemma getReactNativeStartupTiming_startTime_witness :
  let startupLogger :=
    {| getAppStartupStartTime := None;
       getInitReactRuntimeStartTime := Some 5;
       getRunJSBundleStartTime := None; getRunJSBundleEndTime := None;
       getInitReactRuntimeEndTime := None;
       getAppStartupEndTime := None |} in
  let result := getReactNativeStartupTiming isNoneDouble startupLogger in
  is_Some (result !! "initializeRuntimeStart")
  ∧ is_Some (result !! "startTime").
Proof.
  assert (is_Some
            (getReactNativeStartupTiming isNoneDouble
               {| getAppStartupStartTime := None;
                  getInitReactRuntimeStartTime := Some 5;
                  getRunJSBundleStartTime := None;
                  getRunJSBundleEndTime := None;
                  getInitReactRuntimeEndTime := None;
                  getAppStartupEndTime := None |}
             !! "initializeRuntimeStart")) as H.
  { by exists (Some 5). }
  split; [exact H|].
  exact (proj2 (getReactNativeStartupTiming_startTime isNoneDouble _) H).
Defined.

(** An instance: the type of measures is listed and accepted. *)
Lemma isAvailableFromTimeline_listed_witness :
  MEASURE ∈ ENTRY_TYPES_AVAILABLE_FROM_TIMELINE
  ∧ isAvailableFromTimeline MEASURE = true.
Proof.
  assert (MEASURE ∈ ENTRY_TYPES_AVAILABLE_FROM_TIMELINE) as H.
  { unfold ENTRY_TYPES_AVAILABLE_FROM_TIMELINE. rewrite !elem_of_cons. tauto. }
  split; [exact H|].
  exact (proj2 (isAvailableFromTimeline_listed MEASURE) H).
Defined.
